(** * bytebot-agent: the OpenAI provider adapter

    A shallow embedding of [packages/bytebot-agent/src/openai/openai.service.ts]
    and [openai.constants.ts].  The service translates stored conversation
    messages into the request schema of the Responses protocol, submits the
    request, translates the answer back into content blocks, and falls back
    once to the Chat Completions protocol.

    JavaScript strings are [string]; numbers that count tokens are [Z]; a
    property that may be [undefined] is an [option]; the two network
    endpoints are an oracle ([Provider]) and every call is recorded in the
    [World] that the service's methods thread through. *)

From Stdlib Require Import String Ascii ZArith List Bool Lia DecimalString.
From stdpp Require Import base strings gmap.
Import ListNotations.
Local Open Scope string_scope.
Local Open Scope Z_scope.
Local Open Scope list_scope.
Set Warnings "-register-all".

(** ** JavaScript strings and truthiness *)

Module JS.

(** The line feed of ['\n']. *)
Definition LF : string := String (ascii_of_nat 10) EmptyString.

(** [s.startsWith(p)] *)
Definition startsWith (s p : string) : bool := String.prefix p s.

(** [s.includes(p)]: [p] occurs in [s] at some offset. *)
Fixpoint includes (s p : string) : bool :=
  String.prefix p s ||
  match s with
  | EmptyString => false
  | String _ s' => includes s' p
  end.

(** Canonicalisation of a code unit under the [i] flag of a regular
    expression without the [u] flag: ASCII letters lose their case, every
    other code unit is kept. *)
Definition canonicalize (c : ascii) : ascii :=
  let n := nat_of_ascii c in
  if (65 <=? n)%nat && (n <=? 90)%nat then ascii_of_nat (n + 32) else c.

Fixpoint canonicalizeAll (s : string) : string :=
  match s with
  | EmptyString => EmptyString
  | String c s' => String (canonicalize c) (canonicalizeAll s')
  end.

(** [/responses/i.test(s)] *)
Definition test_responses_i (s : string) : bool :=
  includes (canonicalizeAll s) "responses".

(** [xs.join(sep)] *)
Definition join (sep : string) (xs : list string) : string :=
  String.concat sep xs.

(** Truthiness of a value that is a string or [undefined]. *)
Definition truthy (v : option string) : bool :=
  match v with
  | Some s => negb (s =? "")%string
  | None => false
  end.

(** [a || b] where [b] is a string. *)
Definition or_string (a : option string) (b : string) : string :=
  match a with
  | Some s => if (s =? "")%string then b else s
  | None => b
  end.

(** [a || b] where both sides may be [undefined]. *)
Definition or_undefined (a b : option string) : option string :=
  if truthy a then a else b.

(** [n || 0] where [n] is a number or [undefined]. *)
Definition or_zero (n : option Z) : Z :=
  match n with
  | Some k => if k =? 0 then 0 else k
  | None => 0
  end.

(** A template literal prints [undefined] for a missing value. *)
Definition interpolate (v : option string) : string :=
  match v with
  | Some s => s
  | None => "undefined"
  end.

(** [xs.filter(Boolean)] on strings drops the empty ones. *)
Definition filterBoolean (xs : list string) : list string :=
  filter (fun s => negb (s =? "")%string) xs.

(** The values [JSON.parse] produces and [JSON.stringify] consumes.  An
    object keeps its members in order. *)
Inductive JSONValue : Type :=
| JNull
| JBool (b : bool)
| JNumber (n : Z)
| JString (s : string)
| JArray (items : list JSONValue)
| JObject (members : list (string * JSONValue)).

(** The object literal [{}]. *)
Definition emptyObject : JSONValue := JObject [].

(** The errors the service can catch: what [instanceof] sees, and the
    [status] and [message] properties the handler reads. *)
Inductive ErrorClass := APIUserAbortError | APIError | SyntaxError | TypeError.

Record Error := mkError {
  error_class : ErrorClass;
  status : option Z;
  message : option string
}.

Definition instanceofAPIUserAbortError (e : Error) : bool :=
  match error_class e with
  | APIUserAbortError => true
  | _ => false
  end.

End JS.
Import JS.

(** ** The content blocks of [@bytebot/shared] and the Prisma message *)

Inductive Role := USER | ASSISTANT.

Record ImageSource := mkImageSource {
  media_type : string;
  data : string
}.

(** One constructor per [MessageContentType] the service handles.  The name
    of a tool invocation is optional because the fallback path builds tool
    invocations from a reply whose function name may be missing. *)
Inductive MessageContentBlock : Type :=
| Text (text : string)
| Image (source : ImageSource)
| ToolUse (id : string) (name : option string) (input : JSONValue)
| ToolResult (tool_use_id : string) (content : list MessageContentBlock)
| Thinking (thinking : string) (signature : string)
| UserAction (content : list MessageContentBlock).

Record Message := mkMessage {
  role : Role;
  content : list MessageContentBlock
}.

Definition Role_eqb (a b : Role) : bool :=
  match a, b with
  | USER, USER | ASSISTANT, ASSISTANT => true
  | _, _ => false
  end.

(** Modelled from the spec: the type guard [isUserActionContentBlock] of
    [@bytebot/shared] is not among the sources; its signature
    [obj is UserActionContentBlock] is a test of the block's discriminant. *)
Definition isUserActionContentBlock (block : MessageContentBlock) : bool :=
  match block with
  | UserAction _ => true
  | _ => false
  end.

(** Modelled from the spec: the type guard [isImageContentBlock] of
    [@bytebot/shared] is not among the sources; its signature
    [obj is ImageContentBlock] is a test of the block's discriminant. *)
Definition isImageContentBlock (block : MessageContentBlock) : bool :=
  match block with
  | Image _ => true
  | _ => false
  end.

(** [block.content] of a user action. *)
Definition userActionContent (block : MessageContentBlock)
  : list MessageContentBlock :=
  match block with
  | UserAction content => content
  | _ => []
  end.

(** ** The wire types of the OpenAI SDK *)

(** A part of the [content] of a request message. *)
Inductive ResponseInputContent :=
| input_text (text : string)
| output_text (text : string)
| input_image (detail : string) (image_url : string).

(** [ResponseFunctionToolCall], an item of type ['function_call']. *)
Record ResponseFunctionToolCall := mkFunctionToolCall {
  call_id : string;
  fc_name : option string;
  arguments : string
}.

(** [ResponseReasoningItem]: the fields the service reads or writes. *)
Record ResponseReasoningItem := mkReasoningItem {
  reasoning_id : string;
  encrypted_content : option string;
  summary : list string
}.

(** [ResponseInputItem]: the items [formatMessagesForOpenAI] builds. *)
Inductive ResponseInputItem :=
| InputMessage (role : string) (content : list ResponseInputContent)
| InputFunctionCall (call : ResponseFunctionToolCall)
| InputReasoning (reasoning : ResponseReasoningItem)
| FunctionCallOutput (call_id : string) (output : string).

(** A part of the [content] of an answer message. *)
Inductive ResponseOutputContent :=
| ResponseOutputText (text : string)
| ResponseOutputRefusal (refusal : string).

(** [ResponseOutputItem].  Every item other than a message or a function
    call is kept with its [type] tag and the fields that the cast to
    [ResponseReasoningItem] reads. *)
Inductive ResponseOutputItem :=
| OutputMessage (content : list ResponseOutputContent)
| OutputFunctionCall (call : ResponseFunctionToolCall)
| OutputOther (type : string) (fields : ResponseReasoningItem).

(** [item.type] *)
Definition item_type (item : ResponseOutputItem) : string :=
  match item with
  | OutputMessage _ => "message"
  | OutputFunctionCall _ => "function_call"
  | OutputOther type _ => type
  end.

(** A function-call item and a reasoning item belong to both unions. *)
Definition asOutputItem (item : ResponseInputItem) : option ResponseOutputItem :=
  match item with
  | InputFunctionCall call => Some (OutputFunctionCall call)
  | InputReasoning reasoning => Some (OutputOther "reasoning" reasoning)
  | _ => None
  end.

(** A tool definition of [openai.tools]: the fields the fallback copies. *)
Record FunctionTool := mkFunctionTool {
  tool_name : string;
  tool_description : string;
  tool_parameters : JSONValue
}.

(** ** What the service imports *)

(** The built-ins of the JavaScript runtime the service calls.
    [JSON_parse] is [None] where [JSON.parse] throws a [SyntaxError], whose
    message is [SyntaxError_message]. *)
Class Runtime := {
  JSON_stringify : JSONValue -> string;
  JSON_stringify_indent : JSONValue -> Z -> string;
  JSON_parse : string -> option JSONValue;
  SyntaxError_message : string -> string;
  JSON_stringify_block : MessageContentBlock -> string;
  JSON_stringify_item : ResponseOutputItem -> string;
  Error_toString : Error -> string
}.

(** The modules of the repository that are not among the sources:
    [openai.tools], the computer-tool test behind
    [isComputerToolUseContentBlock], and the environment of the process. *)
Class Imports := {
  openaiTools : list FunctionTool;
  isComputerToolName : option string -> bool;
  process_env : gmap string string
}.

(** Modelled from the spec: the type guard [isComputerToolUseContentBlock]
    of [@bytebot/shared] is not among the sources; a computer tool use is a
    tool invocation whose name is one of the computer tools. *)
Definition isComputerToolUseContentBlock {host : Imports}
  (block : MessageContentBlock) : bool :=
  match block with
  | ToolUse _ name _ => isComputerToolName name
  | _ => false
  end.

(** ** [formatMessagesForOpenAI] *)

Section FormatMessagesForOpenAI.
Context {rt : Runtime} {host : Imports}.

Definition dataURL (source : ImageSource) : string :=
  "data:" +:+ media_type source +:+ ";base64," +:+ data source.

Definition imageMessage (source : ImageSource) : ResponseInputItem :=
  InputMessage "user" [input_image "high" (dataURL source)].

(** The body of the loop over the blocks of a user action. *)
Definition formatUserActionBlock (block : MessageContentBlock)
  : list ResponseInputItem :=
  if isComputerToolUseContentBlock block then
    match block with
    | ToolUse _ name input =>
        [InputMessage "user"
           [input_text ("User performed action: " +:+ interpolate name +:+ LF
                        +:+ JSON_stringify_indent input 2)]]
    | _ => []
    end
  else if isImageContentBlock block then
    match block with
    | Image source => [imageMessage source]
    | _ => []
    end
  else [].

(** The callback of [toolResult.content.forEach]. *)
Definition formatToolResultPart (tool_use_id : string)
  (content : MessageContentBlock) : list ResponseInputItem :=
  match content with
  | Text text => [FunctionCallOutput tool_use_id text]
  | Image source =>
      [FunctionCallOutput tool_use_id "screenshot"; imageMessage source]
  | _ => []
  end.

(** The [switch (block.type)] of the second branch. *)
Definition formatBlock (role : Role) (block : MessageContentBlock)
  : list ResponseInputItem :=
  match block with
  | Text text =>
      if Role_eqb role USER
      then [InputMessage "user" [input_text text]]
      else [InputMessage "assistant" [output_text text]]
  | ToolUse id name input =>
      if Role_eqb role ASSISTANT
      then [InputFunctionCall (mkFunctionToolCall id name (JSON_stringify input))]
      else []
  | Thinking thinking signature =>
      [InputReasoning (mkReasoningItem signature (Some thinking) [])]
  | ToolResult tool_use_id content =>
      flat_map (formatToolResultPart tool_use_id) content
  | _ => [InputMessage "user" [input_text (JSON_stringify_block block)]]
  end.

(** The body of the loop over the messages: the items one message
    appends. *)
Definition formatMessage (message : Message) : list ResponseInputItem :=
  let messageContentBlocks := content message in
  if forallb isUserActionContentBlock messageContentBlocks then
    let userActionContentBlocks :=
      flat_map userActionContent messageContentBlocks in
    flat_map formatUserActionBlock userActionContentBlocks
  else
    flat_map (formatBlock (role message)) messageContentBlocks.

Fixpoint formatMessagesForOpenAI_loop (openaiMessages : list ResponseInputItem)
  (messages : list Message) : list ResponseInputItem :=
  match messages with
  | [] => openaiMessages
  | message :: rest =>
      formatMessagesForOpenAI_loop (openaiMessages ++ formatMessage message) rest
  end.

Definition formatMessagesForOpenAI (messages : list Message)
  : list ResponseInputItem :=
  formatMessagesForOpenAI_loop [] messages.

End FormatMessagesForOpenAI.

(** ** [formatMessagesForChat], the mapping of the fallback path *)

(** A message of a Chat Completions request: [{ role, content }], or
    [{ role: 'tool', tool_call_id, content }]. *)
Inductive ChatMessage :=
| ChatRoleMessage (role : string) (content : string)
| ChatToolMessage (tool_call_id : string) (content : string).

(** [(b as any).text] *)
Definition blockText (b : MessageContentBlock) : option string :=
  match b with
  | Text text => Some text
  | _ => None
  end.

Definition isTextBlock (b : MessageContentBlock) : bool :=
  match b with
  | Text _ => true
  | _ => false
  end.

(** [.filter(Boolean)] on values that are strings or [undefined]. *)
Definition filterBooleanValues (xs : list (option string)) : list string :=
  flat_map (fun v => match v with
                     | Some s => if (s =? "")%string then [] else [s]
                     | None => []
                     end) xs.

(** The tool message of one block, if the block is a tool result. *)
Definition chatToolMessage (b : MessageContentBlock) : list ChatMessage :=
  match b with
  | ToolResult tool_use_id content =>
      let textParts :=
        filterBoolean
          (map (fun c => match c with Text text => text | _ => "" end) content) in
      [ChatToolMessage tool_use_id
         (or_string (Some (join LF textParts)) "tool result")]
  | _ => []
  end.

(** The body of the loop over the messages. *)
Definition formatChatMessage (m : Message) : list ChatMessage :=
  let blocks := content m in
  let texts :=
    filterBooleanValues
      (map blockText
         (filter (fun b => isTextBlock b || truthy (blockText b)) blocks)) in
  (if (0 <? Z.of_nat (length texts))
   then [ChatRoleMessage
           (if Role_eqb (role m) USER then "user" else "assistant")
           (join LF texts)]
   else [])
  ++ flat_map chatToolMessage blocks.

Fixpoint formatMessagesForChat_loop (out : list ChatMessage)
  (messages : list Message) : list ChatMessage :=
  match messages with
  | [] => out
  | m :: rest => formatMessagesForChat_loop (out ++ formatChatMessage m) rest
  end.

Definition formatMessagesForChat (messages : list Message)
  (systemPrompt : option string) : list ChatMessage :=
  let out :=
    match systemPrompt with
    | Some prompt =>
        if truthy (Some prompt) then [ChatRoleMessage "system" prompt] else []
    | None => []
    end in
  formatMessagesForChat_loop out messages.

(** ** [openai.constants.ts] *)

Record BytebotAgentModel := mkModel {
  provider : string;
  model_name : string;
  title : string;
  contextWindow : Z
}.

Section Constants.
Context {host : Imports}.

(** [process.env.KEY && process.env.KEY.includes('openrouter.ai')] *)
Definition envIncludesOpenRouter (key : string) : bool :=
  match process_env !! key with
  | Some v => truthy (Some v) && includes v "openrouter.ai"
  | None => false
  end.

Definition isOpenRouter : bool :=
  envIncludesOpenRouter "OPENAI_API_BASE"
  || envIncludesOpenRouter "OPENAI_BASE_URL".

Definition OPENAI_MODELS : list BytebotAgentModel :=
  if isOpenRouter then
    [ mkModel "openai" "google/gemini-2.5-pro" "Gemini 2.5 Pro (OpenRouter)" 200000;
      mkModel "openai" "anthropic/claude-3.7-sonnet"
        "Claude 3.7 Sonnet (OpenRouter)" 200000;
      mkModel "openai" "openai/gpt-4o" "GPT-4o (OpenRouter)" 200000 ]
  else
    [ mkModel "openai" "o3-2025-04-16" "o3" 200000;
      mkModel "openai" "gpt-4.1-2025-04-14" "GPT-4.1" 1047576 ].

(** [OPENAI_MODELS[0]]; both lists have a first element. *)
Definition DEFAULT_MODEL : BytebotAgentModel :=
  hd (mkModel "" "" "" 0) OPENAI_MODELS.

End Constants.

(** ** The service, its requests and its answers *)

(** How a JavaScript statement completes: normally, or by a [throw]. *)
Inductive Completion (E A : Type) : Type :=
| Normal (value : A)
| Throw (error : E).
Arguments Normal {E A} value.
Arguments Throw {E A} error.

Record TokenUsage := mkTokenUsage {
  inputTokens : Z;
  outputTokens : Z;
  totalTokens : Z
}.

Record BytebotAgentResponse := mkAgentResponse {
  contentBlocks : list MessageContentBlock;
  tokenUsage : TokenUsage
}.

(** The body of [openai.responses.create]. *)
Record ResponseCreateParams := mkResponseCreateParams {
  rp_model : string;
  max_output_tokens : Z;
  rp_input : list ResponseInputItem;
  instructions : string;
  rp_tools : list FunctionTool;
  reasoning_effort : option string;
  store : bool;
  include : list string
}.

Record ResponseUsage := mkResponseUsage {
  input_tokens : option Z;
  output_tokens : option Z;
  total_tokens : option Z
}.

Record Response := mkResponse {
  output : list ResponseOutputItem;
  usage : option ResponseUsage
}.

(** [{ type: 'function', function: { name, description, parameters } }] *)
Inductive ChatCompletionTool :=
| ChatFunctionTool (name description : string) (parameters : JSONValue).

(** The body of [openai.chat.completions.create]. *)
Record ChatCompletionCreateParams := mkChatParams {
  cp_model : string;
  cp_messages : list ChatMessage;
  cp_tools : option (list ChatCompletionTool);
  tool_choice : option string
}.

(** The reply of the Chat Completions protocol, read as [any]: every
    property may be missing. *)
Inductive ContentPart :=
| PartString (s : string)
| PartObject (text : option string).

Inductive ChatContent :=
| ContentString (s : string)
| ContentArray (parts : list ContentPart)
| ContentObject.

Record ToolCallFunction := mkToolCallFunction {
  fn_name : option string;
  fn_arguments : option string
}.

Record ChatToolCall := mkChatToolCall {
  tc_id : option string;
  tc_function : option ToolCallFunction
}.

Record ChatCompletionMessage := mkChatCompletionMessage {
  msg_content : option ChatContent;
  tool_calls : option (list ChatToolCall)
}.

Record ChatChoice := mkChatChoice {
  choice_message : option ChatCompletionMessage
}.

Record CompletionUsage := mkCompletionUsage {
  prompt_tokens : option Z;
  completion_tokens : option Z;
  chat_total_tokens : option Z
}.

Record ChatCompletion := mkChatCompletion {
  choices : option (list ChatChoice);
  chat_usage : option CompletionUsage
}.

Record AbortSignal := mkAbortSignal { aborted : bool }.

(** The provider behind the client: what each endpoint answers, or the
    error its promise rejects with. *)
Record Provider := mkProvider {
  responses_create :
    ResponseCreateParams -> option AbortSignal -> Completion Error Response;
  chat_completions_create :
    ChatCompletionCreateParams -> option AbortSignal
    -> Completion Error ChatCompletion
}.

(** The client object built by the constructor. *)
Record OpenAIClient := mkClient {
  apiKey : string;
  baseURL : option string;
  defaultHeaders : list (string * string)
}.

(** The fields of [OpenAIService]. *)
Record OpenAIService := mkService {
  openai : OpenAIClient;
  logger : string;
  configService : gmap string string
}.

Inductive NetworkRequest :=
| ResponsesRequest (params : ResponseCreateParams) (signal : option AbortSignal)
| ChatCompletionsRequest (params : ChatCompletionCreateParams)
    (signal : option AbortSignal).

Inductive LogEntry :=
| ConsoleLog (label : string) (error : Error)
| LoggerWarn (message : string)
| LoggerLog (message : string)
| LoggerError (message : string) (error : Error).

(** Everything [generateMessage] can touch: the service object itself, the
    requests sent so far, and what has been logged. *)
Record World := mkWorld {
  service : OpenAIService;
  requests : list NetworkRequest;
  logged : list LogEntry
}.

(** What [generateMessage] throws: the interrupt, or the caught error. *)
Inductive Thrown :=
| BytebotAgentInterrupt
| Rethrown (error : Error).

(** ** Actions on the world *)

Definition Action (E A : Type) : Type := World -> Completion E A * World.

Definition ret {E A} (a : A) : Action E A := fun w => (Normal a, w).

Definition throw {E A} (e : E) : Action E A := fun w => (Throw e, w).

Definition bind {E A B} (m : Action E A) (k : A -> Action E B) : Action E B :=
  fun w =>
    match m w with
    | (Normal a, w') => k a w'
    | (Throw e, w') => (Throw e, w')
    end.

(** [try { m } catch (e) { handler e }] *)
Definition try_catch {E E' A} (m : Action E A) (handler : E -> Action E' A)
  : Action E' A :=
  fun w =>
    match m w with
    | (Normal a, w') => (Normal a, w')
    | (Throw e, w') => handler e w'
    end.

(** A completion of a pure computation, as an action. *)
Definition lift {E A} (c : Completion E A) : Action E A := fun w => (c, w).

Notation "'do' x <- m ; k" := (bind m (fun x => k))
  (at level 10, x name, m at level 100, k at level 200).
Notation "'exec' m ; k" := (bind m (fun _ => k))
  (at level 10, m at level 100, k at level 200).

(** [this] *)
Definition this {E} : Action E OpenAIService := fun w => (Normal (service w), w).

Definition log {E} (entry : LogEntry) : Action E unit :=
  fun w => (Normal tt, mkWorld (service w) (requests w) (logged w ++ [entry])).

(** [configService.get<string>(key)] *)
Definition config_get (config : gmap string string) (key : string)
  : option string :=
  config !! key.

(** ** The constructor *)

(** [...(!!value ? { [name]: value } : {})] *)
Definition header (name : string) (value : option string)
  : list (string * string) :=
  match value with
  | Some v => if truthy (Some v) then [(name, v)] else []
  | None => []
  end.

Definition OpenAIService_constructor (configService : gmap string string)
  : OpenAIService * list LogEntry :=
  let apiKey := config_get configService "OPENAI_API_KEY" in
  let warned :=
    if negb (truthy apiKey)
    then [LoggerWarn
            "OPENAI_API_KEY is not set. OpenAIService will not work properly."]
    else [] in
  let baseURL :=
    or_undefined (config_get configService "OPENAI_API_BASE")
      (or_undefined (config_get configService "OPENAI_BASE_URL")
         (or_undefined (config_get configService "OPENAI_API_HOST") None)) in
  let httpReferer := config_get configService "HTTP_REFERER" in
  let xTitle := config_get configService "X_TITLE" in
  (mkService
     (mkClient (or_string apiKey "dummy-key-for-initialization") baseURL
        (header "HTTP-Referer" httpReferer ++ header "X-Title" xTitle))
     "OpenAIService" configService,
   warned).

(** ** [formatOpenAIResponse] *)

Section FormatOpenAIResponse.
Context {rt : Runtime}.

(** The body of the loop over [message.content]. *)
Definition formatOutputContent (content : ResponseOutputContent)
  : list MessageContentBlock :=
  match content with
  | ResponseOutputText text => [Text text]
  | ResponseOutputRefusal refusal => [Text ("Refusal: " +:+ refusal)]
  end.

(** The case labels that share the reasoning branch. *)
Definition reasoningCases : list string :=
  ["file_search_call"; "web_search_call"; "computer_call"; "reasoning"].

(** The case labels of the tool calls the service does not support. *)
Definition unsupportedCases : list string :=
  ["image_generation_call"; "code_interpreter_call"; "local_shell_call";
   "mcp_call"; "mcp_list_tools"; "mcp_approval_request"].

Definition isCase (labels : list string) (type : string) : bool :=
  existsb (String.eqb type) labels.

(** [JSON.parse(s)] as a completion. *)
Definition parseJSON (s : string) : Completion Error JSONValue :=
  match JSON_parse s with
  | Some v => Normal v
  | None => Throw (mkError SyntaxError None (Some (SyntaxError_message s)))
  end.

(** The [switch (item.type)]: the blocks one item pushes.  An item tagged
    ['message'] or ['function_call'] that lacks the fields of that variant
    throws where the code iterates over, or parses, [undefined]. *)
Definition formatOutputItem (contentBlocks : list MessageContentBlock)
  (item : ResponseOutputItem) : Action Error (list MessageContentBlock) :=
  match item with
  | OutputMessage content =>
      ret (contentBlocks ++ flat_map formatOutputContent content)
  | OutputFunctionCall toolCall =>
      do input <- lift (parseJSON (arguments toolCall));
      ret (contentBlocks
           ++ [ToolUse (call_id toolCall) (fc_name toolCall) input])
  | OutputOther type reasoning =>
      if (type =? "message")%string then
        throw (mkError TypeError None (Some "message.content is not iterable"))
      else if (type =? "function_call")%string then
        throw (mkError SyntaxError None (Some (SyntaxError_message "undefined")))
      else if isCase reasoningCases type then
        match encrypted_content reasoning with
        | Some thinking =>
            if truthy (Some thinking)
            then ret (contentBlocks
                      ++ [Thinking thinking (reasoning_id reasoning)])
            else ret contentBlocks
        | None => ret contentBlocks
        end
      else if isCase unsupportedCases type then
        exec log (LoggerWarn
                    ("Unsupported response output item type: " +:+ type));
        ret (contentBlocks ++ [Text (JSON_stringify_item item)])
      else
        exec log (LoggerWarn
                    ("Unknown response output item type: "
                     +:+ JSON_stringify_item item));
        ret (contentBlocks ++ [Text (JSON_stringify_item item)])
  end.

Fixpoint formatOpenAIResponse_loop (contentBlocks : list MessageContentBlock)
  (response : list ResponseOutputItem)
  : Action Error (list MessageContentBlock) :=
  match response with
  | [] => ret contentBlocks
  | item :: rest =>
      do contentBlocks' <- formatOutputItem contentBlocks item;
      formatOpenAIResponse_loop contentBlocks' rest
  end.

Definition formatOpenAIResponse (response : list ResponseOutputItem)
  : Action Error (list MessageContentBlock) :=
  formatOpenAIResponse_loop [] response.

End FormatOpenAIResponse.

(** ** [generateMessage] *)

Section GenerateMessage.
Context {rt : Runtime} {host : Imports}.
Variable api : Provider.

(** [await this.openai.responses.create(params, { signal })] *)
Definition call_responses_create (params : ResponseCreateParams)
  (signal : option AbortSignal) : Action Error Response :=
  fun w =>
    (responses_create api params signal,
     mkWorld (service w) (requests w ++ [ResponsesRequest params signal])
       (logged w)).

(** [await this.openai.chat.completions.create(params, { signal })] *)
Definition call_chat_completions_create (params : ChatCompletionCreateParams)
  (signal : option AbortSignal) : Action Error ChatCompletion :=
  fun w =>
    (chat_completions_create api params signal,
     mkWorld (service w) (requests w ++ [ChatCompletionsRequest params signal])
       (logged w)).

(** [usage?.field] *)
Definition optional {U} (usage : option U) (field : U -> option Z) : option Z :=
  match usage with
  | Some u => field u
  | None => None
  end.

(** Truthiness of [msg.content]: an empty string is falsy, an array or an
    object is truthy. *)
Definition contentTruthy (content : ChatContent) : bool :=
  match content with
  | ContentString s => truthy (Some s)
  | _ => true
  end.

(** The [finalText] of the fallback. *)
Definition finalTextOf (content : ChatContent) : string :=
  match content with
  | ContentString s => s
  | ContentArray parts =>
      join LF
        (filterBoolean
           (map (fun p => match p with
                          | PartString s => s
                          | PartObject text => or_string text ""
                          end) parts))
  | ContentObject => ""
  end.

(** The [// text/content] step: the blocks it pushes. *)
Definition chatTextBlocks (msg : option ChatCompletionMessage)
  : list MessageContentBlock :=
  match msg with
  | Some m =>
      match msg_content m with
      | Some content =>
          if contentTruthy content then
            let finalText := finalTextOf content in
            if truthy (Some finalText) then [Text finalText] else []
          else []
      | None => []
      end
  | None => []
  end.

(** The guarded parse of a tool call's arguments. *)
Definition toolCallArgs (arguments : option string) : JSONValue :=
  match arguments with
  | Some a =>
      if truthy (Some a) then
        match parseJSON a with
        | Normal args => args
        | Throw _ => emptyObject
        end
      else emptyObject
  | None => emptyObject
  end.

(** The body of the loop over [msg.tool_calls]: the block it pushes. *)
Definition toolCallBlock (tc : ChatToolCall) : MessageContentBlock :=
  let name :=
    match tc_function tc with
    | Some f => fn_name f
    | None => None
    end in
  let args :=
    toolCallArgs
      match tc_function tc with
      | Some f => fn_arguments f
      | None => None
      end in
  ToolUse (or_string (tc_id tc) (or_string name "tool_call")) name args.

(** The [// tool calls] step: the blocks it pushes. *)
Definition chatToolBlocks (msg : option ChatCompletionMessage)
  : list MessageContentBlock :=
  match msg with
  | Some m =>
      match tool_calls m with
      | Some tcs => map toolCallBlock tcs
      | None => []
      end
  | None => []
  end.

(** What the fallback returns once the completion has arrived. *)
Definition chatCompletionResponse (completion : ChatCompletion)
  : BytebotAgentResponse :=
  let choice :=
    match choices completion with
    | Some cs => head cs
    | None => None
    end in
  let msg :=
    match choice with
    | Some c => choice_message c
    | None => None
    end in
  let blocks := chatTextBlocks msg ++ chatToolBlocks msg in
  mkAgentResponse blocks
    (mkTokenUsage
       (or_zero (optional (chat_usage completion) prompt_tokens))
       (or_zero (optional (chat_usage completion) completion_tokens))
       (or_zero (optional (chat_usage completion) chat_total_tokens))).

(** The [base] the handler reads from the configuration. *)
Definition fallbackBase (self : OpenAIService) : string :=
  or_string (config_get (configService self) "OPENAI_API_BASE")
    (or_string (config_get (configService self) "OPENAI_BASE_URL") "").

Definition likelyNeedsChatAPI (base : string) (error : Error) : bool :=
  includes base "openrouter.ai"
  || match status error with
     | Some s => s =? 404
     | None => false
     end
  || match message error with
     | Some m => test_responses_i m
     | None => false
     end.

Definition chatTools (useTools : bool) : option (list ChatCompletionTool) :=
  if useTools
  then Some (map (fun t => ChatFunctionTool (tool_name t) (tool_description t)
                             (tool_parameters t)) openaiTools)
  else None.

(** The body of the request on the Responses protocol. *)
Definition responseParams (systemPrompt : string) (messages : list Message)
  (model : string) (useTools : bool) : ResponseCreateParams :=
  let isReasoning := startsWith model "o" in
  let openaiMessages := formatMessagesForOpenAI messages in
  let maxTokens := 8192 in
  mkResponseCreateParams model maxTokens openaiMessages systemPrompt
    (if useTools then openaiTools else [])
    (if isReasoning then Some "medium" else None)
    false
    (if isReasoning then ["reasoning.encrypted_content"] else []).

(** The [try] block: the primary call on the Responses protocol. *)
Definition primaryAttempt (systemPrompt : string) (messages : list Message)
  (model : string) (useTools : bool) (signal : option AbortSignal)
  : Action Error BytebotAgentResponse :=
  do response <-
    call_responses_create
      (responseParams systemPrompt messages model useTools) signal;
  do blocks <- formatOpenAIResponse (output response);
  ret (mkAgentResponse blocks
         (mkTokenUsage
            (or_zero (optional (usage response) input_tokens))
            (or_zero (optional (usage response) output_tokens))
            (or_zero (optional (usage response) total_tokens)))).

(** The body of the request on the Chat Completions protocol. *)
Definition chatParams (systemPrompt : string) (messages : list Message)
  (model : string) (useTools : bool) : ChatCompletionCreateParams :=
  let chatMessages := formatMessagesForChat messages (Some systemPrompt) in
  mkChatParams model chatMessages (chatTools useTools)
    (if useTools then Some "auto" else None).

(** The inner [try] block: the one call on the Chat Completions protocol. *)
Definition fallbackAttempt (systemPrompt : string) (messages : list Message)
  (model : string) (useTools : bool) (signal : option AbortSignal)
  : Action Error BytebotAgentResponse :=
  do completion <-
    call_chat_completions_create
      (chatParams systemPrompt messages model useTools) signal;
  ret (chatCompletionResponse completion).

(** The [catch (error)] block.  The fallback either returns, which ends the
    method, or is skipped or fails, which leaves the handler to throw. *)
Definition handleError (systemPrompt : string) (messages : list Message)
  (model : string) (useTools : bool) (signal : option AbortSignal)
  (error : Error) : Action Thrown BytebotAgentResponse :=
  exec log (ConsoleLog "error" error);
  exec log (ConsoleLog "error name" error);
  do self <- this;
  let base := fallbackBase self in
  do returned <-
    (if likelyNeedsChatAPI base error then
       try_catch
         (do response <- fallbackAttempt systemPrompt messages model useTools signal;
          ret (Some response))
         (fun fallbackErr =>
            exec log (LoggerWarn
                        ("Chat Completions fallback failed: "
                         +:+ or_string (message fallbackErr)
                               (Error_toString fallbackErr)));
            ret None)
     else ret None);
  match returned with
  | Some response => ret response
  | None =>
      if instanceofAPIUserAbortError error then
        exec log (LoggerLog "OpenAI API call aborted");
        throw BytebotAgentInterrupt
      else
        exec log (LoggerError
                    ("Error sending message to OpenAI: "
                     +:+ interpolate (message error)) error);
        throw (Rethrown error)
  end.

Definition generateMessage (systemPrompt : string) (messages : list Message)
  (model : option string) (useTools : option bool)
  (signal : option AbortSignal) : Action Thrown BytebotAgentResponse :=
  let model := default (model_name DEFAULT_MODEL) model in
  let useTools := default true useTools in
  try_catch
    (primaryAttempt systemPrompt messages model useTools signal)
    (handleError systemPrompt messages model useTools signal).

End GenerateMessage.

(** ** A reference runtime

    A small JSON printer and parser, and the serialisation of blocks and
    items, to run the service on concrete inputs.  The theorems below hold
    for every runtime; this one instantiates them. *)

Module Reference.

Definition quoteChar : ascii := ascii_of_nat 34.
Definition backslash : ascii := ascii_of_nat 92.

Fixpoint escape (s : string) : string :=
  match s with
  | EmptyString => EmptyString
  | String c s' =>
      if Ascii.eqb c quoteChar then String backslash (String quoteChar (escape s'))
      else if Ascii.eqb c backslash then String backslash (String backslash (escape s'))
      else if Ascii.eqb c (ascii_of_nat 10) then String backslash (String "n" (escape s'))
      else String c (escape s')
  end.

Definition quote (s : string) : string :=
  String quoteChar (escape s +:+ String quoteChar EmptyString).

Definition printNumber (n : Z) : string :=
  NilZero.string_of_int (Z.to_int n).

Fixpoint stringify (v : JSONValue) : string :=
  match v with
  | JNull => "null"
  | JBool true => "true"
  | JBool false => "false"
  | JNumber n => printNumber n
  | JString s => quote s
  | JArray items => "[" +:+ join "," (map stringify items) +:+ "]"
  | JObject members =>
      "{" +:+ join "," (map (fun kv => quote (fst kv) +:+ ":" +:+ stringify (snd kv))
                          members) +:+ "}"
  end.

Definition isSpace (c : ascii) : bool :=
  Ascii.eqb c " " || Ascii.eqb c (ascii_of_nat 10)
  || Ascii.eqb c (ascii_of_nat 9) || Ascii.eqb c (ascii_of_nat 13).

Fixpoint skipSpaces (s : string) : string :=
  match s with
  | String c s' => if isSpace c then skipSpaces s' else s
  | EmptyString => s
  end.

Fixpoint dropPrefix (p s : string) : option string :=
  match p, s with
  | EmptyString, _ => Some s
  | String a p', String b s' => if Ascii.eqb a b then dropPrefix p' s' else None
  | String _ _, EmptyString => None
  end.

(** The characters of a string literal, after its opening quote. *)
Fixpoint parseChars (s : string) : option (string * string) :=
  match s with
  | EmptyString => None
  | String c s' =>
      if Ascii.eqb c quoteChar then Some (EmptyString, s')
      else if Ascii.eqb c backslash then
        match s' with
        | String e s'' =>
            let decoded :=
              if Ascii.eqb e "n" then Some (ascii_of_nat 10)
              else if Ascii.eqb e quoteChar || Ascii.eqb e backslash then Some e
              else None in
            match decoded, parseChars s'' with
            | Some d, Some (str, rest) => Some (String d str, rest)
            | _, _ => None
            end
        | EmptyString => None
        end
      else
        match parseChars s' with
        | Some (str, rest) => Some (String c str, rest)
        | None => None
        end
  end.

Definition digit (c : ascii) : option Z :=
  let n := nat_of_ascii c in
  if (48 <=? n)%nat && (n <=? 57)%nat then Some (Z.of_nat n - 48) else None.

Fixpoint parseDigits (s : string) (acc : Z) : Z * string :=
  match s with
  | String c s' =>
      match digit c with
      | Some d => parseDigits s' (10 * acc + d)
      | None => (acc, s)
      end
  | EmptyString => (acc, s)
  end.

Definition parseNatural (s : string) : option (Z * string) :=
  match s with
  | String c _ =>
      match digit c with
      | Some _ => Some (parseDigits s 0)
      | None => None
      end
  | EmptyString => None
  end.

Fixpoint parseValue (fuel : nat) (s : string) : option (JSONValue * string) :=
  match fuel with
  | O => None
  | S fuel' =>
      match skipSpaces s with
      | EmptyString => None
      | String c s' =>
          if Ascii.eqb c "n" then
            option_map (pair JNull) (dropPrefix "ull" s')
          else if Ascii.eqb c "t" then
            option_map (pair (JBool true)) (dropPrefix "rue" s')
          else if Ascii.eqb c "f" then
            option_map (pair (JBool false)) (dropPrefix "alse" s')
          else if Ascii.eqb c quoteChar then
            match parseChars s' with
            | Some (str, rest) => Some (JString str, rest)
            | None => None
            end
          else if Ascii.eqb c "-" then
            match parseNatural s' with
            | Some (n, rest) => Some (JNumber (- n), rest)
            | None => None
            end
          else if Ascii.eqb c "[" then
            match skipSpaces s' with
            | String "]" rest => Some (JArray [], rest)
            | _ =>
                match parseElements fuel' s' with
                | Some (items, rest) => Some (JArray items, rest)
                | None => None
                end
            end
          else if Ascii.eqb c "{" then
            match skipSpaces s' with
            | String "}" rest => Some (JObject [], rest)
            | _ =>
                match parseMembers fuel' s' with
                | Some (members, rest) => Some (JObject members, rest)
                | None => None
                end
            end
          else
            match parseNatural (String c s') with
            | Some (n, rest) => Some (JNumber n, rest)
            | None => None
            end
      end
  end
with parseElements (fuel : nat) (s : string)
  : option (list JSONValue * string) :=
  match fuel with
  | O => None
  | S fuel' =>
      match parseValue fuel' s with
      | Some (v, rest) =>
          match skipSpaces rest with
          | String "," rest' =>
              match parseElements fuel' rest' with
              | Some (vs, rest'') => Some (v :: vs, rest'')
              | None => None
              end
          | String "]" rest' => Some ([v], rest')
          | _ => None
          end
      | None => None
      end
  end
with parseMembers (fuel : nat) (s : string)
  : option (list (string * JSONValue) * string) :=
  match fuel with
  | O => None
  | S fuel' =>
      match skipSpaces s with
      | String c s' =>
          if Ascii.eqb c quoteChar then
            match parseChars s' with
            | Some (key, rest) =>
                match skipSpaces rest with
                | String ":" rest' =>
                    match parseValue fuel' rest' with
                    | Some (v, rest'') =>
                        match skipSpaces rest'' with
                        | String "," rest3 =>
                            match parseMembers fuel' rest3 with
                            | Some (ms, rest4) => Some ((key, v) :: ms, rest4)
                            | None => None
                            end
                        | String "}" rest3 => Some ([(key, v)], rest3)
                        | _ => None
                        end
                    | None => None
                    end
                | _ => None
                end
            | None => None
            end
          else None
      | EmptyString => None
      end
  end.

Definition parse (s : string) : option JSONValue :=
  match parseValue (S (String.length s)) s with
  | Some (v, rest) =>
      match skipSpaces rest with
      | EmptyString => Some v
      | _ => None
      end
  | None => None
  end.

Definition optionalMember (key : string) (v : option string)
  : list (string * JSONValue) :=
  match v with
  | Some s => [(key, JString s)]
  | None => []
  end.

Fixpoint blockJSON (b : MessageContentBlock) : JSONValue :=
  match b with
  | Text text => JObject [("type", JString "text"); ("text", JString text)]
  | Image source =>
      JObject [("type", JString "image");
               ("source", JObject [("media_type", JString (media_type source));
                                   ("type", JString "base64");
                                   ("data", JString (data source))])]
  | ToolUse id name input =>
      JObject ([("type", JString "tool_use"); ("id", JString id)]
               ++ optionalMember "name" name ++ [("input", input)])
  | ToolResult tool_use_id content =>
      JObject [("type", JString "tool_result");
               ("tool_use_id", JString tool_use_id);
               ("content", JArray (map blockJSON content))]
  | Thinking thinking signature =>
      JObject [("type", JString "thinking"); ("thinking", JString thinking);
               ("signature", JString signature)]
  | UserAction content =>
      JObject [("type", JString "user_action");
               ("content", JArray (map blockJSON content))]
  end.

Definition outputContentJSON (c : ResponseOutputContent) : JSONValue :=
  match c with
  | ResponseOutputText text =>
      JObject [("type", JString "output_text"); ("text", JString text)]
  | ResponseOutputRefusal refusal =>
      JObject [("type", JString "refusal"); ("refusal", JString refusal)]
  end.

Definition itemJSON (item : ResponseOutputItem) : JSONValue :=
  match item with
  | OutputMessage content =>
      JObject [("type", JString "message");
               ("content", JArray (map outputContentJSON content))]
  | OutputFunctionCall call =>
      JObject ([("type", JString "function_call");
                ("call_id", JString (call_id call))]
               ++ optionalMember "name" (fc_name call)
               ++ [("arguments", JString (arguments call))])
  | OutputOther type fields =>
      JObject ([("type", JString type); ("id", JString (reasoning_id fields))]
               ++ optionalMember "encrypted_content" (encrypted_content fields))
  end.

Definition className (c : ErrorClass) : string :=
  match c with
  | APIUserAbortError => "APIUserAbortError"
  | APIError => "APIError"
  | SyntaxError => "SyntaxError"
  | TypeError => "TypeError"
  end.

#[export] Instance runtime : Runtime := {|
  JSON_stringify := stringify;
  JSON_stringify_indent := fun v _ => stringify v;
  JSON_parse := parse;
  SyntaxError_message := fun s => quote s +:+ " is not valid JSON";
  JSON_stringify_block := fun b => stringify (blockJSON b);
  JSON_stringify_item := fun i => stringify (itemJSON i);
  Error_toString :=
    fun e => className (error_class e) +:+ ": " +:+ or_string (message e) ""
|}.

(** No tools, no computer tool, an empty environment. *)
#[export] Instance imports : Imports := {|
  openaiTools := [];
  isComputerToolName := fun name => startsWith (or_string name "") "computer_";
  process_env := ∅
|}.

End Reference.


(** ** Counting the requests of an invocation *)





(** Every case label of the [switch] of [formatOpenAIResponse]. *)
Definition caseLabels : list string :=
  "message" :: "function_call" :: reasoningCases ++ unsupportedCases.

(** A tool call of the fallback reply has malformed arguments when they are
    missing, empty, or rejected by [JSON.parse]. *)
Definition malformedArguments {rt : Runtime} (arguments : option string) : Prop :=
  match arguments with
  | Some a => a = "" \/ JSON_parse a = None
  | None => True
  end.

(** [tc?.function?.name] and [tc?.function?.arguments] *)
Definition toolCallName (tc : ChatToolCall) : option string :=
  match tc_function tc with
  | Some f => fn_name f
  | None => None
  end.

Definition toolCallArguments (tc : ChatToolCall) : option string :=
  match tc_function tc with
  | Some f => fn_arguments f
  | None => None
  end.

(** [completion.choices?.[0]?.message] *)
Definition firstMessage (completion : ChatCompletion)
  : option ChatCompletionMessage :=
  match choices completion with
  | Some (c :: _) => choice_message c
  | _ => None
  end.

(** ** Sample inputs *)

Module Sample.

Definition config : gmap string string :=
  {[ "OPENAI_API_KEY" := "sk-test";
     "OPENAI_API_BASE" := "https://openrouter.ai/api/v1" ]}.

Definition hostOnlyConfig : gmap string string :=
  {[ "OPENAI_API_KEY" := "sk-test";
     "OPENAI_API_HOST" := "https://openrouter.ai/api/v1" ]}.

Definition world (config : gmap string string) : World :=
  mkWorld (fst (OpenAIService_constructor config)) [] [].

Definition click : JSONValue :=
  JObject [("action", JString "click"); ("x", JNumber 10); ("y", JNumber 20)].

Definition messages : list Message :=
  [ mkMessage USER [Text "open the browser"];
    mkMessage ASSISTANT
      [Thinking "enc-1" "rs_1"; ToolUse "call_1" (Some "computer_click") click];
    mkMessage USER
      [ToolResult "call_1"
         [Text "clicked"; Image (mkImageSource "image/png" "AAAA")]] ].

Definition aborted : Error :=
  mkError APIUserAbortError None (Some "Request was aborted.").

Definition notFound : Error :=
  mkError APIError (Some 404) (Some "404 page not found").

Definition rateLimited : Error :=
  mkError APIError (Some 429) (Some "Rate limit reached").

Definition reply : Response :=
  mkResponse
    [ OutputMessage [ResponseOutputText "done"; ResponseOutputRefusal "no"];
      OutputFunctionCall
        (mkFunctionToolCall "call_2" (Some "computer_click")
           (Reference.stringify click));
      OutputOther "reasoning" (mkReasoningItem "rs_2" (Some "enc-2") []) ]
    (Some (mkResponseUsage (Some 12) (Some 7) None)).

(** A tool call without an id whose arguments are not JSON. *)
Definition brokenCall : ChatToolCall :=
  mkChatToolCall None
    (Some (mkToolCallFunction (Some "computer_click") (Some "{not json"))).

Definition goodCall : ChatToolCall :=
  mkChatToolCall (Some "call_9")
    (Some (mkToolCallFunction (Some "computer_click")
             (Some (Reference.stringify click)))).

Definition chatMessage : ChatCompletionMessage :=
  mkChatCompletionMessage (Some (ContentString "on it"))
    (Some [brokenCall; goodCall]).

Definition completion : ChatCompletion :=
  mkChatCompletion (Some [mkChatChoice (Some chatMessage)])
    (Some (mkCompletionUsage (Some 30) None (Some 41))).

(** A provider whose Responses endpoint answers [primary] and whose Chat
    Completions endpoint answers [fallback]. *)
Definition provider (primary : Completion Error Response)
  (fallback : Completion Error ChatCompletion) : Provider :=
  mkProvider (fun _ _ => primary) (fun _ _ => fallback).

End Sample.
Example stringify_example :
  Reference.stringify
    (JObject [("action", JString "click"); ("x", JNumber 10); ("y", JNumber (-3));
              ("path", JArray [JBool true; JNull])])
  = "{" +:+ Reference.quote "action" +:+ ":" +:+ Reference.quote "click" +:+ ","
    +:+ Reference.quote "x" +:+ ":10," +:+ Reference.quote "y" +:+ ":-3,"
    +:+ Reference.quote "path" +:+ ":[true,null]}".
Proof. reflexivity. Qed.

Example parse_stringify_example :
  let v := JObject [("action", JString "click"); ("x", JNumber 10);
                    ("y", JNumber (-3)); ("path", JArray [JBool true; JNull])] in
  Reference.parse (Reference.stringify v) = Some v.
Proof. vm_compute. reflexivity. Qed.

Example parse_malformed_example :
  Reference.parse "{not json" = None /\ Reference.parse "" = None.
Proof. split; reflexivity. Qed.

(** ** JavaScript strings *)

Lemma append_cons (c : ascii) (s t : string) :
  String c s +:+ t = String c (s +:+ t).
Proof. reflexivity. Qed.

Lemma prefix_append (p s : string) :
  String.prefix p s = true <-> exists rest, s = p +:+ rest.
Proof.
  revert s. induction p as [|c p IH]; intros s.
  - split; [intros _; now exists s | now destruct s].
  - destruct s as [|d s]; simpl.
    + split; [discriminate|]. intros [rest Hrest].
      rewrite append_cons in Hrest. discriminate.
    + destruct (Ascii.ascii_dec c d) as [->|Hcd].
      * rewrite IH. split; intros [rest Hrest]; exists rest.
        -- rewrite append_cons. now rewrite <- Hrest.
        -- rewrite append_cons in Hrest. now injection Hrest.
      * split; [discriminate|]. intros [rest Hrest].
        rewrite append_cons in Hrest. injection Hrest as Hd _.
        now destruct Hcd.
Qed.

(** [includes] finds exactly the strings that hold the pattern somewhere. *)
Lemma includes_append (s p : string) :
  includes s p = true <-> exists before after, s = before +:+ p +:+ after.
Proof.
  induction s as [|c s IH]; cbn [includes];
    rewrite orb_true_iff, prefix_append.
  - split.
    + intros [[rest Hrest]|]; [|discriminate]. now exists EmptyString, rest.
    + intros [[|d before] [after Hs]].
      * left. now exists after.
      * rewrite append_cons in Hs. discriminate.
  - rewrite IH. split.
    + intros [[rest Hrest]|[before [after Hs]]].
      * now exists EmptyString, rest.
      * exists (String c before), after. rewrite append_cons. now rewrite Hs.
    + intros [[|d before] [after Hs]].
      * left. now exists after.
      * right. exists before, after. rewrite append_cons in Hs.
        now injection Hs.
Qed.

Example test_responses_i_sample :
  test_responses_i "The Responses API is not supported" = true
  /\ test_responses_i "Rate limit reached" = false.
Proof. split; reflexivity. Qed.

(** ** The loops are concatenations *)

Section Loops.
Context {rt : Runtime} {host : Imports}.

Lemma formatMessagesForOpenAI_loop_flat_map (messages : list Message) :
  forall openaiMessages,
    formatMessagesForOpenAI_loop openaiMessages messages
    = openaiMessages ++ flat_map formatMessage messages.
Proof.
  induction messages as [|m rest IH]; intros acc; simpl.
  - now rewrite app_nil_r.
  - rewrite IH. now rewrite <- app_assoc.
Qed.

Lemma formatMessagesForOpenAI_flat_map (messages : list Message) :
  formatMessagesForOpenAI messages = flat_map formatMessage messages.
Proof. apply formatMessagesForOpenAI_loop_flat_map. Qed.

Lemma formatMessagesForOpenAI_app (earlier later : list Message) :
  formatMessagesForOpenAI (earlier ++ later)
  = formatMessagesForOpenAI earlier ++ formatMessagesForOpenAI later.
Proof. rewrite !formatMessagesForOpenAI_flat_map. apply flat_map_app. Qed.

(** A message that holds a block other than a user action takes the second
    branch, whatever else it holds. *)
Lemma formatMessage_typed (m : Message) (before after : list MessageContentBlock)
  (block : MessageContentBlock) :
  content m = before ++ block :: after ->
  isUserActionContentBlock block = false ->
  formatMessage m
  = flat_map (formatBlock (role m)) before
    ++ formatBlock (role m) block
    ++ flat_map (formatBlock (role m)) after.
Proof.
  intros Hcontent Hblock. unfold formatMessage. rewrite Hcontent.
  rewrite forallb_app. simpl. rewrite Hblock.
  rewrite andb_false_r. now rewrite flat_map_app.
Qed.

Lemma formatMessagesForOpenAI_block (earlier later : list Message) (m : Message)
  (before after : list MessageContentBlock) (block : MessageContentBlock) :
  content m = before ++ block :: after ->
  isUserActionContentBlock block = false ->
  formatMessagesForOpenAI (earlier ++ m :: later)
  = (formatMessagesForOpenAI earlier ++ flat_map (formatBlock (role m)) before)
    ++ formatBlock (role m) block
    ++ (flat_map (formatBlock (role m)) after ++ formatMessagesForOpenAI later).
Proof.
  intros Hcontent Hblock.
  rewrite formatMessagesForOpenAI_app.
  change (m :: later) with ([m] ++ later).
  rewrite formatMessagesForOpenAI_app.
  rewrite (formatMessagesForOpenAI_flat_map [m]). simpl. rewrite app_nil_r.
  rewrite (formatMessage_typed m before after block Hcontent Hblock).
  now rewrite <- !app_assoc.
Qed.

(** The parts of a tool result, one by one. *)
Lemma formatToolResultParts (tool_use_id : string)
  (parts : list MessageContentBlock) :
  Forall2
    (fun part items =>
       (forall text, part = Text text ->
          items = [FunctionCallOutput tool_use_id text])
       /\ (forall source, part = Image source ->
             items = [FunctionCallOutput tool_use_id "screenshot";
                      InputMessage "user"
                        [input_image "high"
                           ("data:" +:+ media_type source +:+ ";base64,"
                            +:+ data source)]]))
    parts (map (formatToolResultPart tool_use_id) parts).
Proof.
  induction parts as [|part rest IH]; simpl; constructor; auto.
  split; intros ? ->; reflexivity.
Qed.

Lemma flat_map_concat_map {A B} (f : A -> list B) (l : list A) :
  flat_map f l = concat (map f l).
Proof. induction l; simpl; congruence. Qed.

(** C1. For every list of messages, [formatMessagesForOpenAI] turns each
    typed block of a message into request items, in place: a Text block into
    a user message with an input_text part when the message's role is USER
    and into an assistant message with an output_text part otherwise; a
    ToolUse block of an ASSISTANT message into a function_call item with the
    block's id as call_id, its name, and the JSON serialisation of its input
    as arguments; a Thinking block into a reasoning item whose id is the
    signature and whose encrypted_content is the thinking; each Text part of
    a ToolResult block into a function_call_output keyed by tool_use_id, and
    each Image part into a function_call_output reading screenshot followed
    by a user message that carries the image as a data URL. *)
Theorem formatMessagesForOpenAI_converts_blocks
  (earlier later : list Message) (m : Message)
  (before after : list MessageContentBlock) (block : MessageContentBlock) :
  content m = before ++ block :: after ->
  let pre :=
    formatMessagesForOpenAI earlier ++ flat_map (formatBlock (role m)) before in
  let post :=
    flat_map (formatBlock (role m)) after ++ formatMessagesForOpenAI later in
  let out := formatMessagesForOpenAI (earlier ++ m :: later) in
  (forall text, block = Text text -> role m = USER ->
     out = pre ++ [InputMessage "user" [input_text text]] ++ post)
  /\ (forall text, block = Text text -> role m <> USER ->
        out = pre ++ [InputMessage "assistant" [output_text text]] ++ post)
  /\ (forall id name input, block = ToolUse id name input ->
        role m = ASSISTANT ->
        out = pre
              ++ [InputFunctionCall
                    (mkFunctionToolCall id name (JSON_stringify input))]
              ++ post)
  /\ (forall thinking signature, block = Thinking thinking signature ->
        out = pre
              ++ [InputReasoning (mkReasoningItem signature (Some thinking) [])]
              ++ post)
  /\ (forall tool_use_id parts, block = ToolResult tool_use_id parts ->
        exists partItems : list (list ResponseInputItem),
          out = pre ++ concat partItems ++ post
          /\ Forall2
               (fun part items =>
                  (forall text, part = Text text ->
                     items = [FunctionCallOutput tool_use_id text])
                  /\ (forall source, part = Image source ->
                        items = [FunctionCallOutput tool_use_id "screenshot";
                                 InputMessage "user"
                                   [input_image "high"
                                      ("data:" +:+ media_type source
                                       +:+ ";base64," +:+ data source)]]))
               parts partItems).
Proof.
  intros Hcontent pre post out. subst pre post out.
  repeat split.
  - intros text -> Hrole.
    rewrite (formatMessagesForOpenAI_block _ _ _ _ _ _ Hcontent eq_refl).
    simpl. now rewrite Hrole.
  - intros text -> Hrole.
    rewrite (formatMessagesForOpenAI_block _ _ _ _ _ _ Hcontent eq_refl).
    simpl. destruct (role m); [congruence | reflexivity].
  - intros id name input -> Hrole.
    rewrite (formatMessagesForOpenAI_block _ _ _ _ _ _ Hcontent eq_refl).
    simpl. now rewrite Hrole.
  - intros thinking signature ->.
    now rewrite (formatMessagesForOpenAI_block _ _ _ _ _ _ Hcontent eq_refl).
  - intros tool_use_id parts ->.
    exists (map (formatToolResultPart tool_use_id) parts). split.
    + rewrite (formatMessagesForOpenAI_block _ _ _ _ _ _ Hcontent eq_refl).
      change (formatBlock (role m) (ToolResult tool_use_id parts))
        with (flat_map (formatToolResultPart tool_use_id) parts).
      now rewrite (flat_map_concat_map (formatToolResultPart tool_use_id) parts).
    + apply formatToolResultParts.
Qed.

End Loops.

(** The first sample message is a user text. *)
Lemma formatMessagesForOpenAI_converts_blocks_witness :
  formatMessagesForOpenAI
    (rt := Reference.runtime) (host := Reference.imports)
    ([] ++ mkMessage USER [Text "open the browser"] :: [])
  = [InputMessage "user" [input_text "open the browser"]].
Proof.
  exact (proj1 (formatMessagesForOpenAI_converts_blocks
                  (rt := Reference.runtime) (host := Reference.imports)
                  [] [] (mkMessage USER [Text "open the browser"]) [] []
                  (Text "open the browser") eq_refl)
           "open the browser" eq_refl eq_refl).
Defined.

Example formatMessagesForOpenAI_sample :
  formatMessagesForOpenAI (rt := Reference.runtime) (host := Reference.imports)
    Sample.messages
  = [ InputMessage "user" [input_text "open the browser"];
      InputReasoning (mkReasoningItem "rs_1" (Some "enc-1") []);
      InputFunctionCall
        (mkFunctionToolCall "call_1" (Some "computer_click")
           (Reference.stringify Sample.click));
      FunctionCallOutput "call_1" "clicked";
      FunctionCallOutput "call_1" "screenshot";
      InputMessage "user" [input_image "high" "data:image/png;base64,AAAA"] ].
Proof. reflexivity. Qed.

(** A message made of user actions takes the first branch. *)
Example formatMessagesForOpenAI_user_action_sample :
  formatMessagesForOpenAI (rt := Reference.runtime) (host := Reference.imports)
    [mkMessage USER
       [UserAction
          [ToolUse "a_1" (Some "computer_press_keys") (JObject []);
           Image (mkImageSource "image/png" "BBBB");
           Text "ignored"]]]
  = [ InputMessage "user"
        [input_text ("User performed action: computer_press_keys" +:+ LF
                     +:+ "{}")];
      InputMessage "user" [input_image "high" "data:image/png;base64,BBBB"] ].
Proof. reflexivity. Qed.

(** ** Actions: outcome and frame *)

Section ActionFacts.
Context {E A B : Type}.

Lemma fst_bind (m : Action E A) (k : A -> Action E B) (w : World) :
  fst (bind m k w)
  = match fst (m w) with
    | Normal a => fst (k a (snd (m w)))
    | Throw e => Throw e
    end.
Proof. unfold bind. now destruct (m w) as [[a|e] w']. Qed.

Lemma snd_bind (m : Action E A) (k : A -> Action E B) (w : World) :
  snd (bind m k w)
  = match fst (m w) with
    | Normal a => snd (k a (snd (m w)))
    | Throw e => snd (m w)
    end.
Proof. unfold bind. now destruct (m w) as [[a|e] w']. Qed.

End ActionFacts.

(** ** [formatOpenAIResponse], item by item *)

Section ResponseItems.
Context {rt : Runtime}.

Lemma truthy_nonempty (s : string) : s <> "" -> truthy (Some s) = true.
Proof. intros Hs. simpl. now apply String.eqb_neq in Hs as ->. Qed.

Ltac item_cases fields :=
  repeat match goal with
         | |- context [if ?b then _ else _] => destruct b
         | |- context [match encrypted_content fields with _ => _ end] =>
             destruct (encrypted_content fields)
         end.

(** The blocks an item pushes depend neither on the world nor, beyond the
    prefix, on the blocks pushed before. *)
Lemma formatOutputItem_outcome (contentBlocks : list MessageContentBlock)
  (item : ResponseOutputItem) (w w' : World) :
  fst (formatOutputItem contentBlocks item w)
  = match fst (formatOutputItem [] item w') with
    | Normal blocks => Normal (contentBlocks ++ blocks)
    | Throw e => Throw e
    end.
Proof.
  destruct item as [content | call | type fields];
    unfold formatOutputItem, bind, lift, ret, throw, log; simpl.
  - reflexivity.
  - destruct (parseJSON (arguments call)); reflexivity.
  - item_cases fields; simpl; rewrite ?app_nil_r; reflexivity.
Qed.

(** An item only writes to the log. *)
Lemma formatOutputItem_frame (contentBlocks : list MessageContentBlock)
  (item : ResponseOutputItem) (w : World) :
  service (snd (formatOutputItem contentBlocks item w)) = service w
  /\ requests (snd (formatOutputItem contentBlocks item w)) = requests w.
Proof.
  destruct item as [content | call | type fields];
    unfold formatOutputItem, bind, lift, ret, throw, log; simpl.
  - now split.
  - destruct (parseJSON (arguments call)); now split.
  - item_cases fields; now split.
Qed.

Lemma formatOpenAIResponse_loop_outcome (response : list ResponseOutputItem) :
  forall contentBlocks w w',
    fst (formatOpenAIResponse_loop contentBlocks response w)
    = match fst (formatOpenAIResponse response w') with
      | Normal blocks => Normal (contentBlocks ++ blocks)
      | Throw e => Throw e
      end.
Proof.
  unfold formatOpenAIResponse.
  induction response as [|item rest IH]; intros acc w w'; simpl.
  - now rewrite app_nil_r.
  - rewrite !fst_bind.
    rewrite (formatOutputItem_outcome acc item w w').
    destruct (fst (formatOutputItem [] item w')) as [blocks|e]; [|reflexivity].
    rewrite (IH (acc ++ blocks) _ w'), (IH blocks _ w').
    destruct (fst (formatOpenAIResponse_loop [] rest w')); [|reflexivity].
    now rewrite app_assoc.
Qed.

Lemma formatOpenAIResponse_world (response : list ResponseOutputItem)
  (w w' : World) :
  fst (formatOpenAIResponse response w) = fst (formatOpenAIResponse response w').
Proof.
  unfold formatOpenAIResponse at 1.
  rewrite (formatOpenAIResponse_loop_outcome response [] w w').
  now destruct (fst (formatOpenAIResponse response w')).
Qed.

Lemma formatOpenAIResponse_frame (response : list ResponseOutputItem) :
  forall contentBlocks w,
    service (snd (formatOpenAIResponse_loop contentBlocks response w))
    = service w
    /\ requests (snd (formatOpenAIResponse_loop contentBlocks response w))
       = requests w.
Proof.
  induction response as [|item rest IH]; intros acc w; simpl.
  - now split.
  - rewrite snd_bind.
    destruct (formatOutputItem_frame acc item w) as [Hservice Hrequests].
    destruct (fst (formatOutputItem acc item w)) as [blocks|e].
    + destruct (IH blocks (snd (formatOutputItem acc item w))) as [-> ->].
      now split.
    + now split.
Qed.

Lemma formatOpenAIResponse_cons (item : ResponseOutputItem)
  (rest : list ResponseOutputItem) (w : World) :
  fst (formatOpenAIResponse (item :: rest) w)
  = match fst (formatOutputItem [] item w) with
    | Normal blocks =>
        match fst (formatOpenAIResponse rest w) with
        | Normal blocks' => Normal (blocks ++ blocks')
        | Throw e => Throw e
        end
    | Throw e => Throw e
    end.
Proof.
  unfold formatOpenAIResponse at 1. simpl. rewrite fst_bind.
  destruct (fst (formatOutputItem [] item w)); [|reflexivity].
  apply formatOpenAIResponse_loop_outcome.
Qed.

Lemma formatOpenAIResponse_app (earlier later : list ResponseOutputItem)
  (w : World) :
  fst (formatOpenAIResponse (earlier ++ later) w)
  = match fst (formatOpenAIResponse earlier w) with
    | Normal blocks =>
        match fst (formatOpenAIResponse later w) with
        | Normal blocks' => Normal (blocks ++ blocks')
        | Throw e => Throw e
        end
    | Throw e => Throw e
    end.
Proof.
  induction earlier as [|item rest IH].
  - change (fst (formatOpenAIResponse [] w))
      with (Normal (E := Error) ([] : list MessageContentBlock)).
    simpl. now destruct (fst (formatOpenAIResponse later w)).
  - rewrite <- app_comm_cons, !formatOpenAIResponse_cons, IH.
    destruct (fst (formatOutputItem [] item w)); [|reflexivity].
    destruct (fst (formatOpenAIResponse rest w)); [|reflexivity].
    destruct (fst (formatOpenAIResponse later w)); [|reflexivity].
    now rewrite app_assoc.
Qed.

(** An item between two stretches of the answer that convert. *)
Lemma formatOpenAIResponse_item (earlier later : list ResponseOutputItem)
  (item : ResponseOutputItem) (pre post blocks : list MessageContentBlock)
  (w : World) :
  fst (formatOpenAIResponse earlier w) = Normal pre ->
  fst (formatOpenAIResponse later w) = Normal post ->
  fst (formatOutputItem [] item w) = Normal blocks ->
  fst (formatOpenAIResponse (earlier ++ item :: later) w)
  = Normal (pre ++ blocks ++ post).
Proof.
  intros Hpre Hpost Hitem.
  now rewrite formatOpenAIResponse_app, formatOpenAIResponse_cons,
    Hpre, Hpost, Hitem.
Qed.

Lemma formatOutputContents (content : list ResponseOutputContent) :
  flat_map formatOutputContent content
  = map (fun part => match part with
                     | ResponseOutputText text => Text text
                     | ResponseOutputRefusal refusal =>
                         Text ("Refusal: " +:+ refusal)
                     end) content.
Proof.
  induction content as [|[text|refusal] rest IH]; simpl; congruence.
Qed.

(** A tag outside every case label reaches the [default] branch. *)
Lemma formatOutputItem_default (type : string) (fields : ResponseReasoningItem)
  (w : World) :
  isCase caseLabels type = false ->
  fst (formatOutputItem [] (OutputOther type fields) w)
  = Normal [Text (JSON_stringify_item (OutputOther type fields))].
Proof.
  intros Hunknown. unfold isCase, caseLabels in Hunknown. simpl in Hunknown.
  repeat (apply orb_false_elim in Hunknown as [? Hunknown]).
  unfold formatOutputItem, isCase, reasoningCases, unsupportedCases. simpl.
  repeat match goal with
         | E : (_ =? _)%string = false |- _ => rewrite E; clear E
         end.
  reflexivity.
Qed.

(** The tags of the reasoning branch, and what the branch pushes. *)
Lemma formatOutputItem_reasoning (type : string)
  (fields : ResponseReasoningItem) (w : World) :
  In type reasoningCases ->
  fst (formatOutputItem [] (OutputOther type fields) w)
  = match encrypted_content fields with
    | Some thinking =>
        if (thinking =? "")%string then Normal []
        else Normal [Thinking thinking (reasoning_id fields)]
    | None => Normal []
    end.
Proof.
  intros Hin. simpl in Hin.
  destruct Hin as [<-|[<-|[<-|[<-|[]]]]]; simpl;
    destruct (encrypted_content fields) as [thinking|]; try reflexivity;
    simpl; destruct (thinking =? "")%string; reflexivity.
Qed.

Lemma formatOutputItem_unsupported (type : string)
  (fields : ResponseReasoningItem) (w : World) :
  In type unsupportedCases ->
  fst (formatOutputItem [] (OutputOther type fields) w)
  = Normal [Text (JSON_stringify_item (OutputOther type fields))].
Proof.
  intros Hin. simpl in Hin.
  destruct Hin as [<-|[<-|[<-|[<-|[<-|[<-|[]]]]]]]; reflexivity.
Qed.

(** An error of [formatOpenAIResponse] is never an abort. *)
Lemma formatOpenAIResponse_throws (response : list ResponseOutputItem)
  (e : Error) (w : World) :
  fst (formatOpenAIResponse response w) = Throw e ->
  error_class e = SyntaxError \/ error_class e = TypeError.
Proof.
  induction response as [|item rest IH]; [discriminate|].
  rewrite formatOpenAIResponse_cons.
  destruct (fst (formatOutputItem [] item w)) as [blocks|e'] eqn:Hitem.
  - destruct (fst (formatOpenAIResponse rest w)); [discriminate|].
    intros [= ->]. now apply IH.
  - intros [= ->]. clear IH.
    destruct item as [content|call|type fields];
      unfold formatOutputItem, bind, lift, ret, throw, log in Hitem;
      simpl in Hitem.
    + discriminate.
    + unfold parseJSON in Hitem.
      destruct (JSON_parse (arguments call)); [discriminate|].
      injection Hitem as <-. now left.
    + repeat match type of Hitem with
             | context [if ?b then _ else _] => destruct b
             | context [match encrypted_content fields with _ => _ end] =>
                 destruct (encrypted_content fields)
             end; try discriminate; injection Hitem as <-; simpl; tauto.
Qed.

(** A function call whose arguments do not parse makes the whole conversion
    throw. *)
Lemma formatOpenAIResponse_unguarded (response : list ResponseOutputItem)
  (call : ResponseFunctionToolCall) (w : World) :
  In (OutputFunctionCall call) response ->
  JSON_parse (arguments call) = None ->
  exists e, fst (formatOpenAIResponse response w) = Throw e.
Proof.
  intros Hin Hparse.
  induction response as [|item rest IH]; [destruct Hin|].
  rewrite formatOpenAIResponse_cons.
  destruct Hin as [->|Hin].
  - unfold formatOutputItem, bind, lift, parseJSON. rewrite Hparse. simpl. eauto.
  - destruct (fst (formatOutputItem [] item w)); [|eauto].
    destruct (IH Hin) as [e ->]. eauto.
Qed.

(** C2. For every output list of the provider, [formatOpenAIResponse]
    turns each item into content blocks, in place: a message item into one
    Text block per part with a text and one Text block reading
    [Refusal: <refusal>] per part with a refusal; a function_call item into
    a ToolUse block whose id is the call_id, whose name is the item's name
    and whose input is the JSON parse of the arguments; a reasoning item
    with non-empty encrypted_content into a Thinking block whose thinking is
    the encrypted_content and whose signature is the item's id; an item of
    an unknown type into a Text block that holds its JSON serialisation. *)
Theorem formatOpenAIResponse_converts_items
  (earlier later : list ResponseOutputItem) (item : ResponseOutputItem)
  (pre post : list MessageContentBlock) (w : World) :
  fst (formatOpenAIResponse earlier w) = Normal pre ->
  fst (formatOpenAIResponse later w) = Normal post ->
  let out := fst (formatOpenAIResponse (earlier ++ item :: later) w) in
  (forall content, item = OutputMessage content ->
     exists partBlocks : list MessageContentBlock,
       out = Normal (pre ++ partBlocks ++ post)
       /\ Forall2
            (fun part block =>
               (forall text, part = ResponseOutputText text ->
                  block = Text text)
               /\ (forall refusal, part = ResponseOutputRefusal refusal ->
                     block = Text ("Refusal: " +:+ refusal)))
            content partBlocks)
  /\ (forall call input, item = OutputFunctionCall call ->
        JSON_parse (arguments call) = Some input ->
        out = Normal (pre ++ [ToolUse (call_id call) (fc_name call) input]
                      ++ post))
  /\ (forall fields thinking, item = OutputOther "reasoning" fields ->
        encrypted_content fields = Some thinking -> thinking <> "" ->
        out = Normal (pre ++ [Thinking thinking (reasoning_id fields)] ++ post))
  /\ (forall type fields, item = OutputOther type fields ->
        isCase caseLabels type = false ->
        out = Normal (pre ++ [Text (JSON_stringify_item item)] ++ post)).
Proof.
  intros Hpre Hpost out. subst out. repeat split.
  - intros content ->.
    exists (flat_map formatOutputContent content). split.
    + now apply formatOpenAIResponse_item.
    + rewrite formatOutputContents.
      induction content as [|[text|refusal] rest IH]; simpl; constructor;
        try assumption; split; intros ? E; now inversion E.
  - intros call input -> Hparse.
    apply formatOpenAIResponse_item; try assumption.
    unfold formatOutputItem, bind, lift, parseJSON. now rewrite Hparse.
  - intros fields thinking -> Hcontent Hnonempty.
    apply formatOpenAIResponse_item; try assumption.
    rewrite formatOutputItem_reasoning by (simpl; tauto).
    rewrite Hcontent. now apply String.eqb_neq in Hnonempty as ->.
  - intros type fields -> Hunknown.
    apply formatOpenAIResponse_item; try assumption.
    now apply formatOutputItem_default.
Qed.

(** C10. An item of type file_search_call, web_search_call or computer_call
    adds no block unless it carries a non-empty encrypted_content, and then
    it adds the Thinking block a reasoning item would add; it never adds a
    Text block.  An item of type image_generation_call, or of another
    unsupported tool-call type, always adds a Text block that holds its JSON
    serialisation. *)
Theorem formatOpenAIResponse_search_and_computer_calls
  (earlier later : list ResponseOutputItem) (type : string)
  (fields : ResponseReasoningItem) (pre post : list MessageContentBlock)
  (w : World) :
  In type ["file_search_call"; "web_search_call"; "computer_call"] ->
  fst (formatOpenAIResponse earlier w) = Normal pre ->
  fst (formatOpenAIResponse later w) = Normal post ->
  let out :=
    fst (formatOpenAIResponse (earlier ++ OutputOther type fields :: later) w) in
  out = fst (formatOpenAIResponse
               (earlier ++ OutputOther "reasoning" fields :: later) w)
  /\ (truthy (encrypted_content fields) = false -> out = Normal (pre ++ post))
  /\ (forall thinking,
        encrypted_content fields = Some thinking -> thinking <> "" ->
        out = Normal (pre ++ [Thinking thinking (reasoning_id fields)] ++ post))
  /\ (forall text, out <> Normal (pre ++ [Text text] ++ post))
  /\ (forall unsupported fields',
        In unsupported unsupportedCases ->
        fst (formatOpenAIResponse
               (earlier ++ OutputOther unsupported fields' :: later) w)
        = Normal (pre
                  ++ [Text (JSON_stringify_item
                              (OutputOther unsupported fields'))]
                  ++ post)).
Proof.
  intros Htype Hpre Hpost out.
  assert (Hreasoning : In type reasoningCases) by (simpl in *; tauto).
  assert (Hout : out
                 = Normal (pre
                           ++ match encrypted_content fields with
                              | Some thinking =>
                                  if (thinking =? "")%string then []
                                  else [Thinking thinking (reasoning_id fields)]
                              | None => []
                              end ++ post)).
  { subst out. apply formatOpenAIResponse_item; try assumption.
    rewrite formatOutputItem_reasoning by assumption.
    destruct (encrypted_content fields) as [thinking|]; [|reflexivity].
    now destruct (thinking =? "")%string. }
  repeat split.
  - rewrite Hout. symmetry. apply formatOpenAIResponse_item; try assumption.
    rewrite formatOutputItem_reasoning by (simpl; tauto).
    destruct (encrypted_content fields) as [thinking|]; [|reflexivity].
    now destruct (thinking =? "")%string.
  - intros Hfalsy. rewrite Hout.
    destruct (encrypted_content fields) as [thinking|]; [|reflexivity].
    simpl in Hfalsy. apply negb_false_iff in Hfalsy. now rewrite Hfalsy.
  - intros thinking Hcontent Hnonempty. rewrite Hout, Hcontent.
    now apply String.eqb_neq in Hnonempty as ->.
  - intros text Htext. rewrite Hout in Htext.
    injection Htext as Htext.
    apply app_inv_head in Htext.
    change (Text text :: post) with ([Text text] ++ post) in Htext.
    apply app_inv_tail in Htext.
    destruct (encrypted_content fields) as [thinking|]; [|discriminate].
    destruct (thinking =? "")%string; discriminate.
  - intros unsupported fields' Hunsupported.
    apply formatOpenAIResponse_item; try assumption.
    now apply formatOutputItem_unsupported.
Qed.

End ResponseItems.

Lemma formatOpenAIResponse_converts_items_witness :
  fst (formatOpenAIResponse (rt := Reference.runtime)
         ([] ++ OutputFunctionCall
                  (mkFunctionToolCall "call_2" (Some "computer_click")
                     (Reference.stringify Sample.click)) :: [])
         (Sample.world Sample.config))
  = Normal ([] ++ [ToolUse "call_2" (Some "computer_click") Sample.click] ++ []).
Proof.
  refine (proj1 (proj2 (formatOpenAIResponse_converts_items
                          (rt := Reference.runtime) [] [] _ [] []
                          (Sample.world Sample.config) eq_refl eq_refl))
            _ Sample.click eq_refl _).
  vm_compute. reflexivity.
Defined.

Lemma formatOpenAIResponse_search_and_computer_calls_witness :
  fst (formatOpenAIResponse (rt := Reference.runtime)
         ([] ++ OutputOther "web_search_call"
                  (mkReasoningItem "ws_1" (Some "enc-3") []) :: [])
         (Sample.world Sample.config))
  = Normal ([] ++ [Thinking "enc-3" "ws_1"] ++ []).
Proof.
  refine (proj1 (proj2 (proj2 (formatOpenAIResponse_search_and_computer_calls
                                 (rt := Reference.runtime) [] [] "web_search_call"
                                 (mkReasoningItem "ws_1" (Some "enc-3") []) [] []
                                 (Sample.world Sample.config)
                                 _ eq_refl eq_refl)))
            "enc-3" eq_refl _).
  - simpl. tauto.
  - discriminate.
Defined.

Example formatOpenAIResponse_sample :
  fst (formatOpenAIResponse (rt := Reference.runtime) (output Sample.reply)
         (Sample.world Sample.config))
  = Normal [ Text "done"; Text "Refusal: no";
             ToolUse "call_2" (Some "computer_click") Sample.click;
             Thinking "enc-2" "rs_2" ].
Proof. vm_compute. reflexivity. Qed.

(** An unsupported item is logged and kept as text. *)
Example formatOpenAIResponse_unsupported_sample :
  let item := OutputOther "mcp_call" (mkReasoningItem "mcp_1" None []) in
  formatOpenAIResponse (rt := Reference.runtime) [item] (mkWorld
    (fst (OpenAIService_constructor Sample.config)) [] [])
  = (Normal [Text (Reference.stringify (Reference.itemJSON item))],
     mkWorld (fst (OpenAIService_constructor Sample.config)) []
       [LoggerWarn "Unsupported response output item type: mcp_call"]).
Proof. vm_compute. reflexivity. Qed.

(** ** The round trip of tool invocations and reasoning *)

Section RoundTrip.
Context {rt : Runtime} {host : Imports}.

(** C8. An assistant's ToolUse block, sent out as a function_call item by
    [formatMessagesForOpenAI] and read back by [formatOpenAIResponse], is a
    ToolUse block with the same id and name, and with the input that JSON
    stringify followed by JSON parse makes of the block's input: the same
    input, where parse undoes stringify.  A Thinking block with non-empty
    thinking, sent out as a reasoning item and read back, is a Thinking
    block with the same thinking and signature. *)
Theorem tool_use_and_thinking_round_trip
  (id : string) (name : option string) (input input' : JSONValue)
  (role : Role) (thinking signature : string) (w : World) :
  JSON_parse (JSON_stringify input) = Some input' ->
  thinking <> "" ->
  (exists sent received,
     formatMessagesForOpenAI [mkMessage ASSISTANT [ToolUse id name input]]
     = [sent]
     /\ asOutputItem sent = Some received
     /\ item_type received = "function_call"
     /\ fst (formatOpenAIResponse [received] w)
        = Normal [ToolUse id name input']
     /\ (input' = input ->
         fst (formatOpenAIResponse [received] w)
         = Normal [ToolUse id name input]))
  /\ (exists sent received,
        formatMessagesForOpenAI [mkMessage role [Thinking thinking signature]]
        = [sent]
        /\ asOutputItem sent = Some received
        /\ item_type received = "reasoning"
        /\ fst (formatOpenAIResponse [received] w)
           = Normal [Thinking thinking signature]).
Proof.
  intros Hparse Hnonempty. split.
  - eexists. eexists. split; [reflexivity|]. split; [reflexivity|].
    split; [reflexivity|].
    assert (Hback :
              fst (formatOpenAIResponse
                     [OutputFunctionCall
                        (mkFunctionToolCall id name (JSON_stringify input))] w)
              = Normal [ToolUse id name input']).
    { unfold formatOpenAIResponse, formatOpenAIResponse_loop, formatOutputItem,
        bind, lift, ret, parseJSON. simpl.
      now rewrite Hparse. }
    split; [exact Hback|]. intros <-. exact Hback.
  - eexists. eexists. repeat split.
    unfold formatOpenAIResponse, formatOpenAIResponse_loop, formatOutputItem,
      bind, lift, ret. simpl.
    now apply String.eqb_neq in Hnonempty as ->.
Qed.

End RoundTrip.

Lemma tool_use_and_thinking_round_trip_witness :
  (exists sent received,
     formatMessagesForOpenAI (rt := Reference.runtime) (host := Reference.imports)
       [mkMessage ASSISTANT
          [ToolUse "call_1" (Some "computer_click") Sample.click]]
     = [sent]
     /\ asOutputItem sent = Some received
     /\ item_type received = "function_call"
     /\ fst (formatOpenAIResponse (rt := Reference.runtime) [received]
               (Sample.world Sample.config))
        = Normal [ToolUse "call_1" (Some "computer_click") Sample.click])
  /\ (exists sent received,
        formatMessagesForOpenAI (rt := Reference.runtime)
          (host := Reference.imports)
          [mkMessage ASSISTANT [Thinking "enc-1" "rs_1"]]
        = [sent]
        /\ asOutputItem sent = Some received
        /\ item_type received = "reasoning"
        /\ fst (formatOpenAIResponse (rt := Reference.runtime) [received]
                  (Sample.world Sample.config))
           = Normal [Thinking "enc-1" "rs_1"]).
Proof.
  destruct (tool_use_and_thinking_round_trip
              (rt := Reference.runtime) (host := Reference.imports)
              "call_1" (Some "computer_click") Sample.click Sample.click
              ASSISTANT "enc-1" "rs_1" (Sample.world Sample.config))
    as [(sent & received & Hsent & Hreceived & Htype & Hback & _) Hthinking].
  - vm_compute. reflexivity.
  - discriminate.
  - split; [|exact Hthinking].
    exists sent, received. repeat split; assumption.
Defined.

(** ** [generateMessage]: outcome, requests and service *)

Section GenerateMessageFacts.
Context {rt : Runtime} {host : Imports}.
Variable api : Provider.
Variables (systemPrompt : string) (messages : list Message).
Variables (model : option string) (useTools : option bool).
Variable signal : option AbortSignal.

Local Abbreviation theModel := (default (model_name DEFAULT_MODEL) model).
Local Abbreviation theTools := (default true useTools).
Local Abbreviation primaryParams :=
  (responseParams systemPrompt messages theModel theTools).
Local Abbreviation fallbackParams :=
  (chatParams systemPrompt messages theModel theTools).
Local Abbreviation primary :=
  (primaryAttempt api systemPrompt messages theModel theTools signal).
Local Abbreviation invoke :=
  (generateMessage api systemPrompt messages model useTools signal).

Lemma or_zero_default (n : option Z) : or_zero n = default 0 n.
Proof.
  destruct n as [k|]; simpl; [|reflexivity].
  destruct (Z.eqb_spec k 0); congruence.
Qed.

Lemma primaryAttempt_outcome (w : World) :
  fst (primary w)
  = match responses_create api primaryParams signal with
    | Normal response =>
        match fst (formatOpenAIResponse (output response) w) with
        | Normal blocks =>
            Normal (mkAgentResponse blocks
                      (mkTokenUsage
                         (or_zero (optional (usage response) input_tokens))
                         (or_zero (optional (usage response) output_tokens))
                         (or_zero (optional (usage response) total_tokens))))
        | Throw e => Throw e
        end
    | Throw e => Throw e
    end.
Proof.
  unfold primaryAttempt. rewrite fst_bind.
  unfold call_responses_create at 1. simpl.
  destruct (responses_create api primaryParams signal) as [response|e];
    [|reflexivity].
  rewrite fst_bind.
  rewrite (formatOpenAIResponse_world (output response) _ w).
  now destruct (fst (formatOpenAIResponse (output response) w)).
Qed.

Lemma primaryAttempt_frame (w : World) :
  service (snd (primary w)) = service w
  /\ requests (snd (primary w))
     = requests w ++ [ResponsesRequest primaryParams signal].
Proof.
  unfold primaryAttempt. rewrite snd_bind.
  unfold call_responses_create. simpl.
  destruct (responses_create api primaryParams signal) as [response|e];
    [|now split].
  rewrite snd_bind.
  match goal with
  | |- context [formatOpenAIResponse (output response) ?w1] =>
      destruct (formatOpenAIResponse_frame (output response) [] w1)
        as [Hservice Hrequests];
      fold (formatOpenAIResponse (output response) w1) in Hservice, Hrequests;
      destruct (fst (formatOpenAIResponse (output response) w1))
  end; simpl; now rewrite ?Hservice, ?Hrequests.
Qed.

(** What the handler throws once the fallback is out of the way. *)
Lemma handleError_outcome (error : Error) (w : World) :
  fst (handleError api systemPrompt messages theModel theTools signal error w)
  = let rethrow :=
      if instanceofAPIUserAbortError error
      then Throw BytebotAgentInterrupt
      else Throw (Rethrown error) in
    if likelyNeedsChatAPI (fallbackBase (service w)) error then
      match chat_completions_create api fallbackParams signal with
      | Normal completion => Normal (chatCompletionResponse completion)
      | Throw _ => rethrow
      end
    else rethrow.
Proof.
  unfold handleError, fallbackAttempt, call_chat_completions_create,
    bind, try_catch, log, this, ret, throw. simpl.
  destruct (likelyNeedsChatAPI (fallbackBase (service w)) error); simpl.
  - destruct (chat_completions_create api fallbackParams signal); simpl;
      [reflexivity|].
    destruct (instanceofAPIUserAbortError error); reflexivity.
  - destruct (instanceofAPIUserAbortError error); reflexivity.
Qed.

Lemma handleError_requests (error : Error) (w : World) :
  requests
    (snd (handleError api systemPrompt messages theModel theTools signal
            error w))
  = requests w
    ++ (if likelyNeedsChatAPI (fallbackBase (service w)) error
        then [ChatCompletionsRequest fallbackParams signal]
        else []).
Proof.
  unfold handleError, fallbackAttempt, call_chat_completions_create,
    bind, try_catch, log, this, ret, throw. simpl.
  destruct (likelyNeedsChatAPI (fallbackBase (service w)) error); simpl.
  - destruct (chat_completions_create api fallbackParams signal); simpl;
      [reflexivity|].
    destruct (instanceofAPIUserAbortError error); reflexivity.
  - destruct (instanceofAPIUserAbortError error); simpl;
      now rewrite app_nil_r.
Qed.

Lemma handleError_service (error : Error) (w : World) :
  service
    (snd (handleError api systemPrompt messages theModel theTools signal
            error w))
  = service w.
Proof.
  unfold handleError, fallbackAttempt, call_chat_completions_create,
    bind, try_catch, log, this, ret, throw. simpl.
  destruct (likelyNeedsChatAPI (fallbackBase (service w)) error); simpl.
  - destruct (chat_completions_create api fallbackParams signal); simpl;
      [reflexivity|].
    destruct (instanceofAPIUserAbortError error); reflexivity.
  - destruct (instanceofAPIUserAbortError error); reflexivity.
Qed.

Lemma generateMessage_unfold (w : World) :
  invoke w
  = match fst (primary w) with
    | Normal response => (Normal response, snd (primary w))
    | Throw error =>
        handleError api systemPrompt messages theModel theTools signal error
          (snd (primary w))
    end.
Proof.
  unfold generateMessage, try_catch.
  now destruct (primary w) as [[response|error] w'].
Qed.

Lemma generateMessage_outcome (w : World) :
  fst (invoke w)
  = match fst (primary w) with
    | Normal response => Normal response
    | Throw error =>
        let rethrow :=
          if instanceofAPIUserAbortError error
          then Throw BytebotAgentInterrupt
          else Throw (Rethrown error) in
        if likelyNeedsChatAPI (fallbackBase (service w)) error then
          match chat_completions_create api fallbackParams signal with
          | Normal completion => Normal (chatCompletionResponse completion)
          | Throw _ => rethrow
          end
        else rethrow
    end.
Proof.
  rewrite generateMessage_unfold.
  destruct (primaryAttempt_frame w) as [Hservice _].
  destruct (fst (primary w)) as [response|error]; [reflexivity|].
  now rewrite handleError_outcome, Hservice.
Qed.

Lemma generateMessage_requests (w : World) :
  requests (snd (invoke w))
  = requests w
    ++ ResponsesRequest primaryParams signal
       :: match fst (primary w) with
          | Normal _ => []
          | Throw error =>
              if likelyNeedsChatAPI (fallbackBase (service w)) error
              then [ChatCompletionsRequest fallbackParams signal]
              else []
          end.
Proof.
  rewrite generateMessage_unfold.
  destruct (primaryAttempt_frame w) as [Hservice Hrequests].
  destruct (fst (primary w)) as [response|error]; simpl.
  - exact Hrequests.
  - rewrite handleError_requests, Hservice, Hrequests.
    now rewrite <- app_assoc.
Qed.

Lemma generateMessage_service (w : World) :
  service (snd (invoke w)) = service w.
Proof.
  rewrite generateMessage_unfold.
  destruct (primaryAttempt_frame w) as [Hservice _].
  destruct (fst (primary w)) as [response|error]; simpl.
  - exact Hservice.
  - now rewrite handleError_service.
Qed.


Lemma chatCompletionResponse_blocks (completion : ChatCompletion) :
  contentBlocks (chatCompletionResponse completion)
  = chatTextBlocks (firstMessage completion)
    ++ chatToolBlocks (firstMessage completion).
Proof.
  unfold chatCompletionResponse, firstMessage. simpl.
  destruct (choices completion) as [[|c cs]|]; reflexivity.
Qed.

(** Malformed arguments parse to the empty object. *)
Lemma toolCallArgs_malformed (arguments : option string) :
  malformedArguments arguments -> toolCallArgs arguments = emptyObject.
Proof.
  unfold malformedArguments, toolCallArgs, parseJSON.
  destruct arguments as [a|]; [|reflexivity].
  intros [->|Hparse]; [reflexivity|].
  rewrite Hparse. now destruct (truthy (Some a)).
Qed.


(** C6. When [generateMessage] returns, on the primary or on the fallback
    path, its tokenUsage passes the provider's counts through: inputTokens,
    outputTokens and totalTokens are the input, output and total counts the
    provider reported in the reply that is returned, and 0 for a count it
    did not report. *)
Theorem generateMessage_token_usage (w : World)
  (response : BytebotAgentResponse) :
  fst (invoke w) = Normal response ->
  (exists reply,
     responses_create api primaryParams signal = Normal reply
     /\ fst (primary w) = Normal response
     /\ tokenUsage response
        = mkTokenUsage (default 0 (optional (usage reply) input_tokens))
            (default 0 (optional (usage reply) output_tokens))
            (default 0 (optional (usage reply) total_tokens)))
  \/ (exists error completion,
        fst (primary w) = Throw error
        /\ chat_completions_create api fallbackParams signal = Normal completion
        /\ response = chatCompletionResponse completion
        /\ tokenUsage response
           = mkTokenUsage
               (default 0 (optional (chat_usage completion) prompt_tokens))
               (default 0 (optional (chat_usage completion) completion_tokens))
               (default 0 (optional (chat_usage completion) chat_total_tokens))).
Proof.
  rewrite generateMessage_outcome.
  destruct (fst (primary w)) as [response'|error] eqn:Hprimary.
  - intros [= <-]. left. rewrite primaryAttempt_outcome in Hprimary.
    destruct (responses_create api primaryParams signal) as [reply|];
      [|discriminate].
    exists reply. split; [reflexivity|]. split; [reflexivity|].
    destruct (fst (formatOpenAIResponse (output reply) w)); [|discriminate].
    injection Hprimary as <-. simpl. now rewrite !or_zero_default.
  - simpl. intros Hreturn. right.
    destruct (likelyNeedsChatAPI (fallbackBase (service w)) error);
      [|destruct (instanceofAPIUserAbortError error); discriminate].
    destruct (chat_completions_create api fallbackParams signal)
      as [completion|];
      [|destruct (instanceofAPIUserAbortError error); discriminate].
    injection Hreturn as <-. exists error, completion.
    repeat split. simpl. now rewrite !or_zero_default.
Qed.


(** C4. When the call is cancelled through the AbortSignal, so that the
    caught error is an APIUserAbortError, and no fallback attempt returns,
    [generateMessage] throws BytebotAgentInterrupt: it neither returns a
    result nor lets the provider's error through. *)
Theorem generateMessage_abort_interrupts (w : World) (error : Error) :
  fst (primary w) = Throw error ->
  instanceofAPIUserAbortError error = true ->
  likelyNeedsChatAPI (fallbackBase (service w)) error = false
  \/ (exists fallbackErr,
        chat_completions_create api fallbackParams signal = Throw fallbackErr) ->
  fst (invoke w) = Throw BytebotAgentInterrupt.
Proof.
  intros Hprimary Habort Hfallback.
  rewrite generateMessage_outcome, Hprimary. simpl. rewrite Habort.
  destruct Hfallback as [->|[fallbackErr Hfailed]]; [reflexivity|].
  rewrite Hfailed. now destruct (likelyNeedsChatAPI _ _).
Qed.

End GenerateMessageFacts.



Section TwoInvocations.
Context {rt : Runtime} {host : Imports}.
Variables api api' : Provider.
Variables (systemPrompt : string) (messages : list Message).
Variables (model : option string) (useTools : option bool).
Variable signal : option AbortSignal.

Local Abbreviation theModel := (default (model_name DEFAULT_MODEL) model).
Local Abbreviation theTools := (default true useTools).
Local Abbreviation primaryParams :=
  (responseParams systemPrompt messages theModel theTools).
Local Abbreviation fallbackParams :=
  (chatParams systemPrompt messages theModel theTools).

Lemma or_string_falsy (a : option string) (b : string) :
  truthy a = false -> or_string a b = b.
Proof.
  destruct a as [s|]; simpl; [|reflexivity].
  intros Hs. apply negb_false_iff in Hs. now rewrite Hs.
Qed.

Lemma or_string_truthy (s b : string) : s <> "" -> or_string (Some s) b = s.
Proof. intros Hs. simpl. now apply String.eqb_neq in Hs as ->. Qed.

(** C7. An invocation of [generateMessage] leaves the service as it found
    it: no field is written and nothing is cached.  Hence two invocations
    with the same arguments that get the same answers from the provider
    return the same result, whatever was requested or logged before. *)
Theorem generateMessage_leaves_service_unchanged (w : World) :
  responses_create api' primaryParams signal
  = responses_create api primaryParams signal ->
  chat_completions_create api' fallbackParams signal
  = chat_completions_create api fallbackParams signal ->
  service (snd (generateMessage api systemPrompt messages model useTools
                  signal w))
  = service w
  /\ (forall w2, service w2 = service w ->
        fst (generateMessage api' systemPrompt messages model useTools
               signal w2)
        = fst (generateMessage api systemPrompt messages model useTools
                 signal w))
  /\ fst (generateMessage api' systemPrompt messages model useTools signal
            (snd (generateMessage api systemPrompt messages model useTools
                    signal w)))
     = fst (generateMessage api systemPrompt messages model useTools signal w).
Proof.
  intros Hresponses Hchat.
  assert (Hsame : forall w2, service w2 = service w ->
            fst (generateMessage api' systemPrompt messages model useTools
                   signal w2)
            = fst (generateMessage api systemPrompt messages model useTools
                     signal w)).
  { intros w2 Hservice.
    rewrite !generateMessage_outcome, !primaryAttempt_outcome.
    rewrite Hresponses, Hchat, Hservice.
    destruct (responses_create api primaryParams signal) as [reply|];
      [|reflexivity].
    now rewrite (formatOpenAIResponse_world (output reply) w2 w). }
  split; [apply generateMessage_service|]. split; [exact Hsame|].
  apply Hsame, generateMessage_service.
Qed.

(** C9. On the fallback path malformed tool-call arguments never make
    [generateMessage] fail: a tool call whose arguments are missing or are
    not valid JSON still gives a ToolUse block, with the empty object as
    input and with an id that falls back to the function name, or to the
    string tool_call when the name is missing too.  The primary path, by
    contrast, parses the arguments of a function_call item unguarded: one
    item whose arguments do not parse makes the conversion, and with it the
    primary attempt, throw. *)
Theorem fallback_guards_tool_call_arguments (w : World) (error : Error)
  (completion : ChatCompletion) (msg : ChatCompletionMessage)
  (tcs : list ChatToolCall) (tc : ChatToolCall) :
  fst (primaryAttempt api systemPrompt messages theModel theTools signal w)
  = Throw error ->
  likelyNeedsChatAPI (fallbackBase (service w)) error = true ->
  chat_completions_create api fallbackParams signal = Normal completion ->
  firstMessage completion = Some msg ->
  tool_calls msg = Some tcs ->
  In tc tcs ->
  malformedArguments (toolCallArguments tc) ->
  (exists response id,
     fst (generateMessage api systemPrompt messages model useTools signal w)
     = Normal response
     /\ In (ToolUse id (toolCallName tc) emptyObject) (contentBlocks response)
     /\ (forall i, tc_id tc = Some i -> i <> "" -> id = i)
     /\ (truthy (tc_id tc) = false ->
         forall n, toolCallName tc = Some n -> n <> "" -> id = n)
     /\ (truthy (tc_id tc) = false -> truthy (toolCallName tc) = false ->
         id = "tool_call"))
  /\ (forall (provider : Provider) (w' : World) (reply : Response)
        (call : ResponseFunctionToolCall),
        responses_create provider primaryParams signal = Normal reply ->
        In (OutputFunctionCall call) (output reply) ->
        JSON_parse (arguments call) = None ->
        exists e,
          fst (primaryAttempt provider systemPrompt messages theModel theTools
                 signal w')
          = Throw e
          /\ (likelyNeedsChatAPI (fallbackBase (service w')) e = false ->
              fst (generateMessage provider systemPrompt messages model
                     useTools signal w')
              = Throw (Rethrown e))).
Proof.
  intros Hprimary Hlikely Hcompletion Hmsg Htcs Hin Hmalformed. split.
  - exists (chatCompletionResponse completion).
    exists (or_string (tc_id tc) (or_string (toolCallName tc) "tool_call")).
    split; [|split; [|split; [|split]]].
    + now rewrite generateMessage_outcome, Hprimary, Hlikely, Hcompletion.
    + rewrite chatCompletionResponse_blocks, Hmsg.
      apply in_or_app. right. simpl. rewrite Htcs.
      apply in_map_iff. exists tc. split; [|assumption].
      unfold toolCallBlock.
      change (match tc_function tc with
              | Some f => fn_arguments f
              | None => None
              end) with (toolCallArguments tc).
      now rewrite (toolCallArgs_malformed _ Hmalformed).
    + intros i -> Hi. now apply or_string_truthy.
    + intros Hid n -> Hn. rewrite (or_string_falsy _ _ Hid).
      now apply or_string_truthy.
    + intros Hid Hname. now rewrite (or_string_falsy _ _ Hid), or_string_falsy.
  - intros provider w' reply call Hreply Hcall Hparse.
    destruct (formatOpenAIResponse_unguarded _ _ w' Hcall Hparse) as [e He].
    exists e. split.
    + now rewrite primaryAttempt_outcome, Hreply, He.
    + intros Hunlikely.
      rewrite generateMessage_outcome, primaryAttempt_outcome, Hreply, He.
      simpl. rewrite Hunlikely. unfold instanceofAPIUserAbortError.
      now destruct (formatOpenAIResponse_throws _ _ _ He) as [-> | ->].
Qed.

End TwoInvocations.

(** ** The service on the sample inputs *)

Example generateMessage_primary_sample :
  fst (generateMessage (rt := Reference.runtime) (host := Reference.imports)
         (Sample.provider (Normal Sample.reply) (Throw Sample.notFound))
         "be helpful" Sample.messages None None None
         (Sample.world Sample.config))
  = Normal
      (mkAgentResponse
         [ Text "done"; Text "Refusal: no";
           ToolUse "call_2" (Some "computer_click") Sample.click;
           Thinking "enc-2" "rs_2" ]
         (mkTokenUsage 12 7 0)).
Proof. vm_compute. reflexivity. Qed.

(** The constructor also accepts OPENAI_API_HOST as the base of the client;
    the handler of [generateMessage] reads OPENAI_API_BASE and
    OPENAI_BASE_URL only. *)
Example fallback_ignores_OPENAI_API_HOST :
  let w := Sample.world Sample.hostOnlyConfig in
  baseURL (openai (service w)) = Some "https://openrouter.ai/api/v1"
  /\ fallbackBase (service w) = ""
  /\ generateMessage (rt := Reference.runtime) (host := Reference.imports)
       (Sample.provider (Throw Sample.rateLimited) (Normal Sample.completion))
       "be helpful" [] (Some "gpt-4.1-2025-04-14") (Some false) None w
     = (Throw (Rethrown Sample.rateLimited),
        mkWorld (service w)
          [ResponsesRequest
             (mkResponseCreateParams "gpt-4.1-2025-04-14" 8192 [] "be helpful"
                [] None false [])
             None]
          [ ConsoleLog "error" Sample.rateLimited;
            ConsoleLog "error name" Sample.rateLimited;
            LoggerError "Error sending message to OpenAI: Rate limit reached"
              Sample.rateLimited ]).
Proof. vm_compute. repeat split. Qed.


Lemma generateMessage_abort_interrupts_witness :
  fst (generateMessage (rt := Reference.runtime) (host := Reference.imports)
         (Sample.provider (Throw Sample.aborted) (Throw Sample.aborted))
         "be helpful" Sample.messages None None
         (Some (mkAbortSignal true)) (Sample.world Sample.config))
  = Throw BytebotAgentInterrupt.
Proof.
  apply (generateMessage_abort_interrupts
           (rt := Reference.runtime) (host := Reference.imports)
           (Sample.provider (Throw Sample.aborted) (Throw Sample.aborted))
           "be helpful" Sample.messages None None (Some (mkAbortSignal true))
           (Sample.world Sample.config) Sample.aborted).
  - reflexivity.
  - reflexivity.
  - right. exists Sample.aborted. reflexivity.
Defined.

Lemma generateMessage_token_usage_witness :
  exists response,
    fst (generateMessage (rt := Reference.runtime) (host := Reference.imports)
           (Sample.provider (Normal Sample.reply) (Throw Sample.notFound))
           "be helpful" Sample.messages None None None
           (Sample.world Sample.config))
    = Normal response
    /\ tokenUsage response = mkTokenUsage 12 7 0.
Proof.
  exists (mkAgentResponse
            [ Text "done"; Text "Refusal: no";
              ToolUse "call_2" (Some "computer_click") Sample.click;
              Thinking "enc-2" "rs_2" ]
            (mkTokenUsage 12 7 0)).
  assert (Hreturn :
            fst (generateMessage (rt := Reference.runtime)
                   (host := Reference.imports)
                   (Sample.provider (Normal Sample.reply)
                      (Throw Sample.notFound))
                   "be helpful" Sample.messages None None None
                   (Sample.world Sample.config))
            = Normal
                (mkAgentResponse
                   [ Text "done"; Text "Refusal: no";
                     ToolUse "call_2" (Some "computer_click") Sample.click;
                     Thinking "enc-2" "rs_2" ]
                   (mkTokenUsage 12 7 0)))
    by (vm_compute; reflexivity).
  split; [exact Hreturn|].
  destruct (generateMessage_token_usage
              (rt := Reference.runtime) (host := Reference.imports)
              (Sample.provider (Normal Sample.reply) (Throw Sample.notFound))
              "be helpful" Sample.messages None None None
              (Sample.world Sample.config) _ Hreturn)
    as [(reply & Hreply & _ & Husage)
       | (error & completion & _ & Hcompletion & _)].
  - injection Hreply as <-. exact Husage.
  - discriminate Hcompletion.
Defined.

Lemma generateMessage_leaves_service_unchanged_witness :
  let api :=
    Sample.provider (Throw Sample.rateLimited) (Normal Sample.completion) in
  let api' :=
    mkProvider
      (fun _ signal =>
         match signal with
         | Some _ => Throw Sample.aborted
         | None => Throw Sample.rateLimited
         end)
      (fun _ _ => Normal Sample.completion) in
  let first :=
    generateMessage (rt := Reference.runtime) (host := Reference.imports) api
      "be helpful" Sample.messages None None None (Sample.world Sample.config) in
  service (snd first) = service (Sample.world Sample.config)
  /\ fst (generateMessage (rt := Reference.runtime)
            (host := Reference.imports) api' "be helpful" Sample.messages
            None None None (snd first))
     = fst first.
Proof.
  intros api api' first.
  destruct (generateMessage_leaves_service_unchanged
              (rt := Reference.runtime) (host := Reference.imports) api api'
              "be helpful" Sample.messages None None None
              (Sample.world Sample.config) eq_refl eq_refl)
    as (Hservice & _ & Hagain).
  split; [exact Hservice | exact Hagain].
Defined.

Lemma fallback_guards_tool_call_arguments_witness :
  exists response,
    fst (generateMessage (rt := Reference.runtime) (host := Reference.imports)
           (Sample.provider (Throw Sample.rateLimited)
              (Normal Sample.completion))
           "be helpful" Sample.messages None None None
           (Sample.world Sample.config))
    = Normal response
    /\ In (ToolUse "computer_click" (Some "computer_click") emptyObject)
         (contentBlocks response).
Proof.
  destruct (fallback_guards_tool_call_arguments
              (rt := Reference.runtime) (host := Reference.imports)
              (Sample.provider (Throw Sample.rateLimited)
                 (Normal Sample.completion))
              "be helpful" Sample.messages None None None
              (Sample.world Sample.config) Sample.rateLimited Sample.completion
              Sample.chatMessage [Sample.brokenCall; Sample.goodCall]
              Sample.brokenCall)
    as [(response & id & Hreturn & Hin & _ & Hname & _) _].
  - reflexivity.
  - vm_compute. reflexivity.
  - reflexivity.
  - reflexivity.
  - reflexivity.
  - simpl. left. reflexivity.
  - simpl. right. reflexivity.
  - exists response. split; [exact Hreturn|].
    assert (Hid : id = "computer_click")
      by (apply Hname; [reflexivity | reflexivity | discriminate]).
    subst id. exact Hin.
Defined.

(** ** The constructor and the constants *)

Section Construction.

Ltac config_cases config :=
  repeat match goal with
         | |- context [config !! ?k] =>
             let v := fresh "v" in
             let E := fresh "E" in
             destruct (config !! k) as [v|] eqn:E
         | |- context [(?s =? "")%string] =>
             let E := fresh "E" in
             destruct (String.eqb_spec s "") as [E|E]; try subst s
         end.

(** X1. The client never gets an empty API key: a missing or empty
    OPENAI_API_KEY is replaced by the placeholder key and warned about once;
    a key that is set is used as it is, without a warning. *)
Theorem constructor_api_key (config : gmap string string) :
  let svc := fst (OpenAIService_constructor config) in
  let warned := snd (OpenAIService_constructor config) in
  apiKey (openai svc) <> ""
  /\ (forall key, config !! "OPENAI_API_KEY" = Some key -> key <> "" ->
        apiKey (openai svc) = key /\ warned = [])
  /\ (truthy (config !! "OPENAI_API_KEY") = false ->
        apiKey (openai svc) = "dummy-key-for-initialization"
        /\ warned
           = [LoggerWarn
                "OPENAI_API_KEY is not set. OpenAIService will not work properly."])
  /\ configService svc = config.
Proof.
  unfold OpenAIService_constructor, config_get. simpl. repeat split.
  - destruct (config !! "OPENAI_API_KEY") as [key|]; simpl; [|discriminate].
    destruct (String.eqb_spec key ""); [discriminate | assumption].
  - rewrite H. now apply or_string_truthy.
  - rewrite H. simpl. now apply String.eqb_neq in H0 as ->.
  - now apply or_string_falsy.
  - now rewrite H.
Qed.

(** X2. The base URL of the client is the first of OPENAI_API_BASE,
    OPENAI_BASE_URL and OPENAI_API_HOST that is set to a non-empty string,
    and undefined when none is; it is never the empty string. *)
Theorem constructor_baseURL (config : gmap string string) :
  let url := baseURL (openai (fst (OpenAIService_constructor config))) in
  url <> Some ""
  /\ (forall v, config !! "OPENAI_API_BASE" = Some v -> v <> "" -> url = Some v)
  /\ (truthy (config !! "OPENAI_API_BASE") = false ->
      forall v, config !! "OPENAI_BASE_URL" = Some v -> v <> "" -> url = Some v)
  /\ (truthy (config !! "OPENAI_API_BASE") = false ->
      truthy (config !! "OPENAI_BASE_URL") = false ->
      forall v, config !! "OPENAI_API_HOST" = Some v -> v <> "" -> url = Some v)
  /\ (truthy (config !! "OPENAI_API_BASE") = false ->
      truthy (config !! "OPENAI_BASE_URL") = false ->
      truthy (config !! "OPENAI_API_HOST") = false -> url = None).
Proof.
  unfold OpenAIService_constructor, config_get, or_undefined. simpl.
  repeat split.
  - unfold truthy. config_cases config; simpl; congruence.
  - intros v -> Hv. now rewrite (truthy_nonempty v Hv).
  - intros -> v -> Hv. now rewrite (truthy_nonempty v Hv).
  - intros -> -> v -> Hv. now rewrite (truthy_nonempty v Hv).
  - now intros -> -> ->.
Qed.

(** X3. The base the error handler of [generateMessage] inspects agrees
    with the base URL of the client whenever the handler sees one: a
    non-empty handler base is the client's base URL.  When the handler sees
    none, the client's base URL comes from OPENAI_API_HOST alone. *)
Theorem constructor_base_agrees_with_handler (config : gmap string string) :
  let svc := fst (OpenAIService_constructor config) in
  (fallbackBase svc <> "" -> baseURL (openai svc) = Some (fallbackBase svc))
  /\ (fallbackBase svc = "" ->
      baseURL (openai svc)
      = or_undefined (config !! "OPENAI_API_HOST") None)
  /\ (includes (fallbackBase svc) "openrouter.ai" = true ->
      exists url, baseURL (openai svc) = Some url
                  /\ includes url "openrouter.ai" = true).
Proof.
  assert (Hbase : let svc := fst (OpenAIService_constructor config) in
            (fallbackBase svc <> "" ->
             baseURL (openai svc) = Some (fallbackBase svc))
            /\ (fallbackBase svc = "" ->
                baseURL (openai svc)
                = or_undefined (config !! "OPENAI_API_HOST") None)).
  { unfold OpenAIService_constructor, fallbackBase, config_get, or_undefined,
      or_string, truthy. simpl.
    split; config_cases config; simpl; congruence. }
  simpl in *. destruct Hbase as [Hset Hunset]. repeat split; try assumption.
  intros Hincludes. eexists. split; [|exact Hincludes].
  apply Hset. intros Hempty. rewrite Hempty in Hincludes. discriminate.
Qed.

End Construction.

Section ConstantsFacts.
Context {rt : Runtime} {host : Imports}.

(** X4. The model table is the OpenRouter one exactly when OPENAI_API_BASE
    or OPENAI_BASE_URL of the environment holds openrouter.ai somewhere in
    its value. *)
Theorem isOpenRouter_iff :
  isOpenRouter = true
  <-> exists key value before after,
        (key = "OPENAI_API_BASE" \/ key = "OPENAI_BASE_URL")
        /\ process_env !! key = Some value
        /\ value = before +:+ "openrouter.ai" +:+ after.
Proof.
  assert (Hkey : forall key,
            envIncludesOpenRouter key = true
            <-> exists value before after,
                  process_env !! key = Some value
                  /\ value = before +:+ "openrouter.ai" +:+ after).
  { intros key. unfold envIncludesOpenRouter.
    destruct (process_env !! key) as [value|].
    - rewrite andb_true_iff, includes_append. split.
      + intros [_ (before & after & Hvalue)]. now exists value, before, after.
      + intros (value' & before & after & [= <-] & Hvalue). split.
        * apply truthy_nonempty. intros ->.
          destruct before; discriminate.
        * now exists before, after.
    - split; [discriminate|]. now intros (? & ? & ? & [=] & _). }
  unfold isOpenRouter. rewrite orb_true_iff, !Hkey. split.
  - intros [(value & before & after & Hget & Hvalue)
           |(value & before & after & Hget & Hvalue)].
    + exists "OPENAI_API_BASE", value, before, after. tauto.
    + exists "OPENAI_BASE_URL", value, before, after. tauto.
  - intros (key & value & before & after & [-> | ->] & Hget & Hvalue).
    + left. now exists value, before, after.
    + right. now exists value, before, after.
Qed.

(** X5. In every environment the default model is the first entry of the
    model table, and a call of [generateMessage] without a model asks for
    reasoning, with its encrypted content, exactly when the table is not
    the OpenRouter one. *)
Theorem default_model_and_reasoning (systemPrompt : string)
  (messages : list Message) (useTools : bool) :
  head OPENAI_MODELS = Some DEFAULT_MODEL
  /\ In DEFAULT_MODEL OPENAI_MODELS
  /\ Forall (fun m => provider m = "openai") OPENAI_MODELS
  /\ List.NoDup (map model_name OPENAI_MODELS)
  /\ let params :=
       responseParams systemPrompt messages (model_name DEFAULT_MODEL)
         useTools in
     rp_model params = model_name DEFAULT_MODEL
     /\ reasoning_effort params
        = (if isOpenRouter then None else Some "medium")
     /\ include params
        = (if isOpenRouter then [] else ["reasoning.encrypted_content"]).
Proof.
  unfold DEFAULT_MODEL, OPENAI_MODELS, responseParams.
  destruct isOpenRouter; simpl.
  - repeat split; try tauto.
    + repeat constructor.
    + repeat (apply List.NoDup_cons; [simpl; intuition discriminate|]).
      apply List.NoDup_nil.
  - repeat split; try tauto.
    + repeat constructor.
    + repeat (apply List.NoDup_cons; [simpl; intuition discriminate|]).
      apply List.NoDup_nil.
Qed.

End ConstantsFacts.

(** ** [formatMessagesForChat] *)

Section ChatMessages.

Lemma formatMessagesForChat_loop_flat_map (messages : list Message) :
  forall out,
    formatMessagesForChat_loop out messages
    = out ++ flat_map formatChatMessage messages.
Proof.
  induction messages as [|m rest IH]; intros out; simpl.
  - now rewrite app_nil_r.
  - rewrite IH. now rewrite <- app_assoc.
Qed.

Lemma formatMessagesForChat_None (messages : list Message) :
  formatMessagesForChat messages None = flat_map formatChatMessage messages.
Proof. apply formatMessagesForChat_loop_flat_map. Qed.

Lemma flat_map_flat_map {A B C} (f : B -> list C) (g : A -> list B)
  (l : list A) :
  flat_map f (flat_map g l) = flat_map (fun x => flat_map f (g x)) l.
Proof.
  induction l as [|x l IH]; simpl; [reflexivity|].
  now rewrite flat_map_app, IH.
Qed.

Lemma join_nonempty (sep : string) (xs : list string) :
  xs <> [] -> Forall (fun s => s <> "") xs -> join sep xs <> "".
Proof.
  destruct xs as [|x xs]; [congruence|]. intros _ Hall.
  inversion Hall as [|? ? Hx _]; subst. unfold join. simpl.
  destruct xs; [assumption|].
  destruct x; [congruence | discriminate].
Qed.

Lemma filterBooleanValues_nonempty (xs : list (option string)) :
  Forall (fun s => s <> "") (filterBooleanValues xs).
Proof.
  unfold filterBooleanValues.
  induction xs as [|[s|] xs IH]; simpl; try assumption; [constructor|].
  destruct (String.eqb_spec s ""); simpl; [assumption|now constructor].
Qed.

(** X6. The system prompt opens the fallback conversation exactly when it
    is non-empty, and nowhere else does a system message occur: the
    messages themselves give only user, assistant and tool messages, one
    message after the other. *)
Theorem formatMessagesForChat_system_prompt (earlier later : list Message)
  (systemPrompt : option string) :
  formatMessagesForChat (earlier ++ later) systemPrompt
  = formatMessagesForChat earlier systemPrompt
    ++ formatMessagesForChat later None
  /\ (forall prompt, systemPrompt = Some prompt -> prompt <> "" ->
        formatMessagesForChat later systemPrompt
        = ChatRoleMessage "system" prompt :: formatMessagesForChat later None)
  /\ (truthy systemPrompt = false ->
        formatMessagesForChat later systemPrompt
        = formatMessagesForChat later None)
  /\ Forall (fun m => match m with
                      | ChatRoleMessage role _ =>
                          role = "user" \/ role = "assistant"
                      | ChatToolMessage _ _ => True
                      end)
       (formatMessagesForChat later None).
Proof.
  repeat split.
  - unfold formatMessagesForChat.
    rewrite !formatMessagesForChat_loop_flat_map, flat_map_app.
    simpl. now rewrite app_assoc.
  - intros prompt -> Hprompt. unfold formatMessagesForChat.
    rewrite (truthy_nonempty prompt Hprompt).
    now rewrite !formatMessagesForChat_loop_flat_map.
  - intros Hfalsy. unfold formatMessagesForChat.
    destruct systemPrompt as [prompt|]; [|reflexivity]. now rewrite Hfalsy.
  - rewrite formatMessagesForChat_None.
    induction later as [|m rest IH]; simpl; [constructor|].
    apply Forall_app. split; [|exact IH].
    unfold formatChatMessage. apply Forall_app. split.
    + destruct (0 <? _); [|constructor].
      constructor; [|constructor].
      destruct (Role_eqb (role m) USER); tauto.
    + induction (content m) as [|b bs IHb]; simpl; [constructor|].
      apply Forall_app. split; [|exact IHb].
      destruct b; simpl; repeat constructor.
Qed.

Lemma formatChatMessage_content_nonempty (m : Message) :
  Forall (fun c => match c with
                   | ChatRoleMessage _ content => content <> ""
                   | ChatToolMessage _ content => content <> ""
                   end)
    (formatChatMessage m).
Proof.
  unfold formatChatMessage. apply Forall_app. split.
  - set (texts := filterBooleanValues _).
    destruct (0 <? Z.of_nat (length texts)) eqn:Hlength; [|constructor].
    constructor; [|constructor].
    apply join_nonempty; [|apply filterBooleanValues_nonempty].
    intros Hnil. rewrite Hnil in Hlength. discriminate.
  - induction (content m) as [|b bs IHb]; simpl; [constructor|].
    apply Forall_app. split; [|exact IHb].
    destruct b as [| | |tool_use_id parts| |]; simpl; repeat constructor.
    unfold or_string.
    destruct (String.eqb_spec
                (join LF (filterBoolean
                            (map (fun c => match c with
                                           | Text text => text
                                           | _ => ""
                                           end) parts))) "");
      [discriminate | assumption].
Qed.

Lemma filterBooleanValues_cons (text : string) (values : list (option string)) :
  filterBooleanValues (Some text :: values)
  = (if (text =? "")%string then [] else [text])
    ++ filterBooleanValues values.
Proof. reflexivity. Qed.

(** The texts the loop gathers from the blocks of a message. *)
Lemma gathered_texts (blocks : list MessageContentBlock) :
  filterBooleanValues
    (map blockText
       (filter (fun b => isTextBlock b || truthy (blockText b)) blocks))
  = List.filter (fun text => negb (text =? "")%string)
      (flat_map (fun b => match b with
                          | Text text => [text]
                          | _ => []
                          end) blocks).
Proof.
  induction blocks as [|b blocks IH]; [reflexivity|].
  rewrite filter_cons.
  destruct b as [text| | | | |];
    cbn [isTextBlock blockText truthy orb flat_map app];
    case_decide; try (exfalso; cbn in *; tauto); try exact IH.
  cbn [map blockText]. rewrite filterBooleanValues_cons, IH.
  cbn [List.filter]. now destruct (text =? "")%string.
Qed.

(** The text parts the loop gathers from a tool result. *)
Lemma gathered_text_parts (parts : list MessageContentBlock) :
  filterBoolean
    (map (fun c => match c with Text text => text | _ => "" end) parts)
  = List.filter (fun text => negb (text =? "")%string)
      (flat_map (fun part => match part with
                             | Text text => [text]
                             | _ => []
                             end) parts).
Proof.
  unfold filterBoolean.
  induction parts as [|part parts IH]; [reflexivity|].
  cbn [map]. rewrite filter_cons.
  destruct part as [text| | | | |]; cbn [flat_map app];
    case_decide; try (exfalso; cbn in *; tauto); try exact IH.
  - cbn [List.filter]. destruct (text =? "")%string; [contradiction|].
    cbn. now f_equal.
  - cbn [List.filter].
    destruct (text =? "")%string; [exact IH | cbn in *; tauto].
Qed.

Lemma filter_nonempty (texts : list string) :
  Forall (fun s => s <> "")
    (List.filter (fun text => negb (text =? "")%string) texts).
Proof.
  induction texts as [|text texts IH]; cbn [List.filter]; [constructor|].
  destruct (text =? "")%string eqn:Htext; cbn [negb]; [exact IH|].
  constructor; [now apply String.eqb_neq | exact IH].
Qed.

(** X7. What the fallback conversation says of a message: one user or
    assistant message that joins, with line feeds, the non-empty texts of
    its Text blocks, and no such message when it has none; and, for each
    tool result, a tool message that joins the non-empty texts of its
    parts, or reads [tool result] when it has none.  Hence no message of
    the conversation has empty content. *)
Theorem formatMessagesForChat_content_nonempty (messages : list Message)
  (earlier later : list Message) (m : Message)
  (systemPrompt : option string) :
  let nonEmptyTexts := fun blocks : list MessageContentBlock =>
    List.filter (fun text => negb (text =? "")%string)
      (flat_map (fun b => match b with
                          | Text text => [text]
                          | _ => []
                          end) blocks) in
  Forall (fun c => match c with
                   | ChatRoleMessage _ content => content <> ""
                   | ChatToolMessage _ content => content <> ""
                   end)
    (formatMessagesForChat messages systemPrompt)
  /\ formatMessagesForChat (earlier ++ m :: later) systemPrompt
     = formatMessagesForChat earlier systemPrompt
       ++ match nonEmptyTexts (content m) with
          | [] => []
          | texts =>
              [ChatRoleMessage
                 (if Role_eqb (role m) USER then "user" else "assistant")
                 (join LF texts)]
          end
       ++ flat_map (fun b =>
                      match b with
                      | ToolResult tool_use_id parts =>
                          [ChatToolMessage tool_use_id
                             match nonEmptyTexts parts with
                             | [] => "tool result"
                             | texts => join LF texts
                             end]
                      | _ => []
                      end) (content m)
       ++ formatMessagesForChat later None.
Proof.
  intros nonEmptyTexts. split.
  - unfold formatMessagesForChat.
    rewrite formatMessagesForChat_loop_flat_map. apply Forall_app. split.
    + destruct systemPrompt as [prompt|]; [|constructor]. simpl.
      destruct (String.eqb_spec prompt ""); simpl; repeat constructor.
      assumption.
    + induction messages as [|m' rest IH]; simpl; [constructor|].
      apply Forall_app. split; [|exact IH].
      apply formatChatMessage_content_nonempty.
  - unfold formatMessagesForChat.
    rewrite !formatMessagesForChat_loop_flat_map, flat_map_app. simpl.
    rewrite <- !app_assoc. do 2 f_equal.
    unfold formatChatMessage. rewrite <- app_assoc. simpl.
    rewrite gathered_texts. fold (nonEmptyTexts (content m)).
    f_equal; [|f_equal].
    + destruct (nonEmptyTexts (content m)); reflexivity.
    + apply flat_map_ext. intros b.
      destruct b as [| | |tool_use_id parts| |]; try reflexivity.
      unfold chatToolMessage. rewrite gathered_text_parts.
      fold (nonEmptyTexts parts). do 2 f_equal.
      pose proof (filter_nonempty
                    (flat_map (fun part => match part with
                                           | Text text => [text]
                                           | _ => []
                                           end) parts)) as Hall.
      fold (nonEmptyTexts parts) in Hall.
      destruct (nonEmptyTexts parts) as [|text texts]; [reflexivity|].
      apply or_string_truthy.
      apply (join_nonempty LF (text :: texts)); [discriminate | exact Hall].
Qed.

(** X8. The tool messages of the fallback conversation are the tool
    results of the messages, one for one and in the same order, each under
    the tool_use_id of its block. *)
Theorem formatMessagesForChat_tool_results (messages : list Message)
  (systemPrompt : option string) :
  flat_map (fun m => match m with
                     | ChatToolMessage tool_call_id _ => [tool_call_id]
                     | ChatRoleMessage _ _ => []
                     end)
    (formatMessagesForChat messages systemPrompt)
  = flat_map (fun m =>
                flat_map (fun b => match b with
                                   | ToolResult tool_use_id _ => [tool_use_id]
                                   | _ => []
                                   end) (content m))
      messages.
Proof.
  unfold formatMessagesForChat.
  rewrite formatMessagesForChat_loop_flat_map, flat_map_app.
  replace (flat_map _ (match systemPrompt with Some _ => _ | None => _ end))
    with (@nil string).
  2:{ destruct systemPrompt as [prompt|]; [|reflexivity].
      now destruct (truthy (Some prompt)). }
  simpl. rewrite flat_map_flat_map.
  apply flat_map_ext. intros m.
  unfold formatChatMessage. rewrite flat_map_app.
  replace (flat_map _ (if 0 <? _ then _ else _)) with (@nil string)
    by now destruct (0 <? _).
  simpl. rewrite flat_map_flat_map.
  apply flat_map_ext. intros b. now destruct b.
Qed.

(** X9. The fallback conversation carries texts and tool results only: the
    tool invocations, the reasoning, the images and the user actions of a
    message are never sent. *)
Theorem formatMessagesForChat_drops_other_blocks (messages : list Message)
  (systemPrompt : option string) :
  formatMessagesForChat messages systemPrompt
  = formatMessagesForChat
      (map (fun m =>
              mkMessage (role m)
                (List.filter (fun b => match b with
                                       | Text _ | ToolResult _ _ => true
                                       | _ => false
                                       end) (content m)))
         messages)
      systemPrompt.
Proof.
  unfold formatMessagesForChat.
  rewrite !formatMessagesForChat_loop_flat_map. f_equal.
  induction messages as [|m rest IH]; simpl; [reflexivity|].
  rewrite <- IH. f_equal. clear IH.
  unfold formatChatMessage. simpl.
  generalize (content m) as l. intros l.
  match goal with
  | |- context [@filter _ _ _ ?P ?D (List.filter ?K l)] =>
      assert (Htexts :
                map blockText (@filter _ _ _ P D l)
                = map blockText (@filter _ _ _ P D (List.filter K l)))
        by (clear; induction l as [|x l IHl];
            [reflexivity
            | destruct x; cbn; repeat case_decide; try tauto; cbn;
              first [exact IHl | f_equal; exact IHl]]);
      assert (Htools :
                flat_map chatToolMessage l
                = flat_map chatToolMessage (List.filter K l))
        by (clear; induction l as [|x l IHl];
            [reflexivity | destruct x; cbn; now rewrite ?IHl])
  end.
  now rewrite <- Htexts, <- Htools.
Qed.

End ChatMessages.

(** ** [formatMessagesForOpenAI]: user actions, call ids, composition *)

Section RequestItems.
Context {rt : Runtime} {host : Imports}.

Lemma flat_map_nil {A B} (f : A -> list B) (l : list A) :
  (forall x, In x l -> f x = []) -> flat_map f l = [].
Proof.
  induction l as [|x l IH]; intros Hnil; simpl; [reflexivity|].
  rewrite (Hnil x) by now left. apply IH. intros y Hy. apply Hnil. now right.
Qed.

Lemma formatUserActionBlock_items (block : MessageContentBlock) :
  Forall (fun item =>
            exists part, item = InputMessage "user" [part]
                         /\ match part with
                            | output_text _ => False
                            | _ => True
                            end)
    (formatUserActionBlock block).
Proof.
  unfold formatUserActionBlock.
  destruct (isComputerToolUseContentBlock block).
  - destruct block; repeat constructor. eexists. split; [reflexivity|exact I].
  - destruct block; simpl; repeat constructor.
    eexists. split; [reflexivity|exact I].
Qed.

(** X10. A message made of user actions only becomes user messages and
    nothing else, one per computer action or screenshot of its actions, in
    place; the role of the message plays no part, and a message without
    blocks adds nothing. *)
Theorem formatMessagesForOpenAI_user_actions (earlier later : list Message)
  (m : Message) :
  forallb isUserActionContentBlock (content m) = true ->
  exists items,
    formatMessagesForOpenAI (earlier ++ m :: later)
    = formatMessagesForOpenAI earlier ++ items ++ formatMessagesForOpenAI later
    /\ Forall (fun item =>
                 exists part, item = InputMessage "user" [part]
                              /\ match part with
                                 | output_text _ => False
                                 | _ => True
                                 end)
         items
    /\ (forall role, formatMessagesForOpenAI [mkMessage role (content m)] = items)
    /\ (content m = [] -> items = []).
Proof.
  intros Hall.
  exists (flat_map formatUserActionBlock
            (flat_map userActionContent (content m))).
  repeat split.
  - rewrite formatMessagesForOpenAI_app.
    change (m :: later) with ([m] ++ later).
    rewrite formatMessagesForOpenAI_app, (formatMessagesForOpenAI_flat_map [m]).
    simpl. rewrite app_nil_r. unfold formatMessage. now rewrite Hall.
  - induction (flat_map userActionContent (content m)) as [|b bs IH]; simpl;
      [constructor|].
    apply Forall_app. split; [apply formatUserActionBlock_items | exact IH].
  - intros role. rewrite formatMessagesForOpenAI_flat_map. simpl.
    rewrite app_nil_r. unfold formatMessage. simpl. now rewrite Hall.
  - now intros ->.
Qed.

Lemma formatToolResultPart_no_call (tool_use_id : string)
  (parts : list MessageContentBlock) :
  flat_map (fun item => match item with
                        | InputFunctionCall call => [call_id call]
                        | _ => []
                        end)
    (flat_map (formatToolResultPart tool_use_id) parts)
  = [].
Proof.
  rewrite flat_map_flat_map. apply flat_map_nil.
  intros part _. now destruct part.
Qed.

(** X11. The function calls of a request are the tool invocations of the
    assistant's messages, one for one and in the same order, each under
    the id of its block; a tool invocation in a message of the user is not
    sent. *)
Theorem formatMessagesForOpenAI_function_calls (messages : list Message) :
  flat_map (fun item => match item with
                        | InputFunctionCall call => [call_id call]
                        | _ => []
                        end)
    (formatMessagesForOpenAI messages)
  = flat_map (fun m =>
                if Role_eqb (role m) ASSISTANT
                then flat_map (fun b => match b with
                                        | ToolUse id _ _ => [id]
                                        | _ => []
                                        end) (content m)
                else [])
      messages.
Proof.
  rewrite formatMessagesForOpenAI_flat_map, flat_map_flat_map.
  apply flat_map_ext. intros m. unfold formatMessage.
  destruct (forallb isUserActionContentBlock (content m)) eqn:Hall.
  - rewrite flat_map_flat_map.
    rewrite (flat_map_nil _ (flat_map userActionContent (content m))).
    2:{ intros b _.
        pose proof (formatUserActionBlock_items b) as Hitems.
        induction Hitems as [|item items (part & -> & _) _ IH];
          [reflexivity | exact IH]. }
    rewrite forallb_forall in Hall.
    rewrite (flat_map_nil _ (content m)).
    + now destruct (Role_eqb (role m) ASSISTANT).
    + intros b Hb. specialize (Hall b Hb). now destruct b.
  - rewrite flat_map_flat_map. destruct (role m); simpl.
    + apply flat_map_nil. intros b _.
      destruct b; try reflexivity. apply formatToolResultPart_no_call.
    + apply flat_map_ext. intros b.
      destruct b; try reflexivity. apply formatToolResultPart_no_call.
Qed.

(** X12. The function call outputs of a request are the text and image
    parts of the tool results of the messages, one for one and in the same
    order, each under the tool_use_id of its tool result. *)
Theorem formatMessagesForOpenAI_function_call_outputs
  (messages : list Message) :
  flat_map (fun item => match item with
                        | FunctionCallOutput call_id _ => [call_id]
                        | _ => []
                        end)
    (formatMessagesForOpenAI messages)
  = flat_map (fun m =>
                flat_map (fun b =>
                            match b with
                            | ToolResult tool_use_id parts =>
                                flat_map (fun part => match part with
                                                      | Text _ | Image _ =>
                                                          [tool_use_id]
                                                      | _ => []
                                                      end) parts
                            | _ => []
                            end) (content m))
      messages.
Proof.
  rewrite formatMessagesForOpenAI_flat_map, flat_map_flat_map.
  apply flat_map_ext. intros m. unfold formatMessage.
  destruct (forallb isUserActionContentBlock (content m)) eqn:Hall.
  - rewrite flat_map_flat_map.
    rewrite (flat_map_nil _ (flat_map userActionContent (content m))).
    2:{ intros b _.
        pose proof (formatUserActionBlock_items b) as Hitems.
        induction Hitems as [|item items (part & -> & _) _ IH];
          [reflexivity | exact IH]. }
    rewrite forallb_forall in Hall. symmetry. apply flat_map_nil.
    intros b Hb. specialize (Hall b Hb). now destruct b.
  - rewrite flat_map_flat_map. apply flat_map_ext. intros b.
    destruct b; simpl; try reflexivity.
    + now destruct (Role_eqb (role m) USER).
    + now destruct (Role_eqb (role m) ASSISTANT).
    + rewrite flat_map_flat_map. apply flat_map_ext. intros part.
      now destruct part.
Qed.

(** X13. A request is built message by message: the items of a
    conversation are the items of its first part followed by the items of
    the rest, and a message without blocks adds nothing. *)
Theorem formatMessagesForOpenAI_message_by_message
  (earlier later : list Message) (m : Message) :
  formatMessagesForOpenAI [] = []
  /\ formatMessagesForOpenAI (earlier ++ later)
     = formatMessagesForOpenAI earlier ++ formatMessagesForOpenAI later
  /\ formatMessagesForOpenAI (earlier ++ [m])
     = formatMessagesForOpenAI earlier ++ formatMessagesForOpenAI [m]
  /\ (content m = [] ->
      formatMessagesForOpenAI (earlier ++ m :: later)
      = formatMessagesForOpenAI (earlier ++ later)).
Proof.
  repeat split; try apply formatMessagesForOpenAI_app.
  intros Hempty. rewrite !formatMessagesForOpenAI_app.
  change (m :: later) with ([m] ++ later).
  rewrite formatMessagesForOpenAI_app, (formatMessagesForOpenAI_flat_map [m]).
  simpl. unfold formatMessage. now rewrite Hempty.
Qed.

(** X14. What does not survive the way out and back: a tool invocation in
    a message of the user is not sent at all; a Thinking block with empty
    thinking is sent as a reasoning item and read back as nothing; and a
    tool invocation whose serialised input the parser rejects makes the
    reading throw a SyntaxError. *)
Theorem round_trip_losses (id : string) (name : option string)
  (input : JSONValue) (role : Role) (signature : string) (w : World) :
  formatMessagesForOpenAI [mkMessage USER [ToolUse id name input]] = []
  /\ (exists sent received,
        formatMessagesForOpenAI [mkMessage role [Thinking "" signature]]
        = [sent]
        /\ asOutputItem sent = Some received
        /\ fst (formatOpenAIResponse [received] w) = Normal [])
  /\ (JSON_parse (JSON_stringify input) = None ->
      exists sent received e,
        formatMessagesForOpenAI [mkMessage ASSISTANT [ToolUse id name input]]
        = [sent]
        /\ asOutputItem sent = Some received
        /\ fst (formatOpenAIResponse [received] w) = Throw e
        /\ error_class e = SyntaxError).
Proof.
  split; [reflexivity|]. split.
  - eexists. eexists. repeat split.
  - intros Hparse. eexists. eexists. eexists.
    split; [reflexivity|]. split; [reflexivity|].
    unfold formatOpenAIResponse, formatOpenAIResponse_loop, formatOutputItem,
      bind, lift, ret, parseJSON. simpl. rewrite Hparse. simpl.
    split; reflexivity.
Qed.

End RequestItems.

Lemma formatMessagesForOpenAI_user_actions_witness :
  formatMessagesForOpenAI (rt := Reference.runtime) (host := Reference.imports)
    [mkMessage ASSISTANT
       [UserAction
          [ToolUse "a_1" (Some "computer_press_keys") (JObject []);
           Image (mkImageSource "image/png" "BBBB")]]]
  = [ InputMessage "user"
        [input_text ("User performed action: computer_press_keys" +:+ LF
                     +:+ "{}")];
      InputMessage "user" [input_image "high" "data:image/png;base64,BBBB"] ].
Proof.
  destruct (formatMessagesForOpenAI_user_actions
              (rt := Reference.runtime) (host := Reference.imports) [] []
              (mkMessage USER
                 [UserAction
                    [ToolUse "a_1" (Some "computer_press_keys") (JObject []);
                     Image (mkImageSource "image/png" "BBBB")]])
              eq_refl)
    as (items & Hitems & _ & Hrole & _).
  exact (eq_trans (Hrole ASSISTANT) (eq_trans (eq_sym (Hrole USER)) eq_refl)).
Defined.

(** ** [formatOpenAIResponse]: failure, shape of the blocks, log *)

Section ResponseFacts.
Context {rt : Runtime}.

Lemma formatOutputItem_throws_iff (item : ResponseOutputItem) (w : World) :
  (exists e, fst (formatOutputItem [] item w) = Throw e)
  <-> match item with
      | OutputMessage _ => False
      | OutputFunctionCall call => JSON_parse (arguments call) = None
      | OutputOther type _ => type = "message" \/ type = "function_call"
      end.
Proof.
  destruct item as [content|call|type fields];
    unfold formatOutputItem, bind, lift, ret, throw, log, parseJSON; simpl.
  - split; [intros [e He]; discriminate | tauto].
  - destruct (JSON_parse (arguments call)); simpl.
    + split; [intros [e He]; discriminate | discriminate].
    + split; [reflexivity | eauto].
  - destruct (String.eqb_spec type "message") as [->|Hmessage];
      [split; [tauto | eauto]|].
    destruct (String.eqb_spec type "function_call") as [->|Hcall];
      [split; [tauto | eauto]|].
    split; [|tauto]. intros [e He]. exfalso.
    repeat match type of He with
           | context [if ?b then _ else _] => destruct b
           | context [match encrypted_content fields with _ => _ end] =>
               destruct (encrypted_content fields)
           end; discriminate.
Qed.

(** X15. An answer is converted as a whole or not at all: the first item
    that cannot be converted ends the conversion with its error, whatever
    the items before it gave and whatever follows. *)
Theorem formatOpenAIResponse_first_error
  (earlier later : list ResponseOutputItem) (item : ResponseOutputItem)
  (pre : list MessageContentBlock) (e : Error) (w : World) :
  fst (formatOpenAIResponse earlier w) = Normal pre ->
  fst (formatOutputItem [] item w) = Throw e ->
  fst (formatOpenAIResponse (earlier ++ item :: later) w) = Throw e.
Proof.
  intros Hpre Hitem.
  now rewrite formatOpenAIResponse_app, formatOpenAIResponse_cons, Hpre, Hitem.
Qed.

(** X16. The conversion of an answer throws exactly when one of its items
    is a function call whose arguments are not valid JSON, or is tagged as
    a message or a function call without being one. *)
Theorem formatOpenAIResponse_throws_iff (response : list ResponseOutputItem)
  (w : World) :
  (exists e, fst (formatOpenAIResponse response w) = Throw e)
  <-> Exists (fun item =>
                match item with
                | OutputMessage _ => False
                | OutputFunctionCall call =>
                    JSON_parse (arguments call) = None
                | OutputOther type _ =>
                    type = "message" \/ type = "function_call"
                end)
        response.
Proof.
  induction response as [|item rest IH].
  - split; [intros [e He]; discriminate | intros H; inversion H].
  - rewrite formatOpenAIResponse_cons, Exists_cons.
    rewrite <- IH, <- (formatOutputItem_throws_iff item w).
    destruct (fst (formatOutputItem [] item w)) as [blocks|e].
    + destruct (fst (formatOpenAIResponse rest w)) as [blocks'|e'].
      * split; [intros [e He]; discriminate|].
        intros [[e He]|[e He]]; discriminate.
      * split; [eauto|eauto].
    + split; eauto.
Qed.

Lemma formatOutputItem_shape (item : ResponseOutputItem)
  (blocks : list MessageContentBlock) (w : World) :
  fst (formatOutputItem [] item w) = Normal blocks ->
  Forall (fun block =>
            match block with
            | Text _ | ToolUse _ _ _ => True
            | Thinking thinking _ => thinking <> ""
            | _ => False
            end) blocks.
Proof.
  destruct item as [content|call|type fields];
    unfold formatOutputItem, bind, lift, ret, throw, log, parseJSON; simpl.
  - intros [= <-]. rewrite formatOutputContents.
    induction content as [|[text|refusal] rest IH]; simpl; now constructor.
  - destruct (JSON_parse (arguments call)); simpl; [|discriminate].
    intros [= <-]. now repeat constructor.
  - repeat match goal with
           | |- context [if ?b then _ else _] => destruct b eqn:?
           | |- context [match encrypted_content fields with _ => _ end] =>
               destruct (encrypted_content fields)
           end; simpl; try discriminate; intros [= <-]; repeat constructor.
    intros ->. discriminate.
Qed.

(** X17. The blocks of a converted answer are Text, ToolUse and Thinking
    blocks only, and a Thinking block among them never has empty
    thinking. *)
Theorem formatOpenAIResponse_blocks (response : list ResponseOutputItem)
  (blocks : list MessageContentBlock) (w : World) :
  fst (formatOpenAIResponse response w) = Normal blocks ->
  Forall (fun block =>
            match block with
            | Text _ | ToolUse _ _ _ => True
            | Thinking thinking _ => thinking <> ""
            | _ => False
            end) blocks.
Proof.
  revert blocks. induction response as [|item rest IH]; intros blocks.
  - intros [= <-]. constructor.
  - rewrite formatOpenAIResponse_cons.
    destruct (fst (formatOutputItem [] item w)) as [first|] eqn:Hitem;
      [|discriminate].
    destruct (fst (formatOpenAIResponse rest w)) as [others|]; [|discriminate].
    intros [= <-]. apply Forall_app. split.
    + now apply (formatOutputItem_shape item first w).
    + now apply IH.
Qed.

Lemma formatOutputItem_log (contentBlocks : list MessageContentBlock)
  (item : ResponseOutputItem) (w : World) :
  exists warnings,
    logged (snd (formatOutputItem contentBlocks item w)) = logged w ++ warnings
    /\ Forall (fun entry => exists text, entry = LoggerWarn text) warnings
    /\ (forall blocks,
          fst (formatOutputItem contentBlocks item w) = Normal blocks ->
          length warnings
          = length (List.filter
                      (fun i => match i with
                                | OutputOther type _ =>
                                    negb (isCase reasoningCases type)
                                | _ => false
                                end) [item])).
Proof.
  destruct item as [content|call|type fields]; unfold formatOutputItem.
  - exists []. unfold ret. simpl. rewrite app_nil_r.
    repeat split. constructor.
  - exists []. unfold bind, lift, ret, parseJSON. simpl. rewrite app_nil_r.
    destruct (JSON_parse (arguments call)); repeat split; constructor.
  - cbn [List.filter].
    destruct (type =? "message")%string.
    { exists []. unfold throw. simpl. rewrite app_nil_r.
      repeat split; [constructor | discriminate]. }
    destruct (type =? "function_call")%string.
    { exists []. unfold throw. simpl. rewrite app_nil_r.
      repeat split; [constructor | discriminate]. }
    destruct (isCase reasoningCases type).
    + exists [].
      destruct (encrypted_content fields) as [thinking|];
        [destruct (truthy (Some thinking))|];
        unfold ret; simpl; rewrite app_nil_r; repeat split; constructor.
    + destruct (isCase unsupportedCases type);
        unfold bind, log, ret; simpl;
        eexists; (split; [reflexivity|]); split;
        try (constructor; [eauto | constructor]); reflexivity.
Qed.

Lemma formatOpenAIResponse_loop_log (response : list ResponseOutputItem) :
  forall (w : World) (acc : list MessageContentBlock),
  exists warnings,
    logged (snd (formatOpenAIResponse_loop acc response w))
    = logged w ++ warnings
    /\ Forall (fun entry => exists text, entry = LoggerWarn text) warnings
    /\ (forall blocks,
          fst (formatOpenAIResponse_loop acc response w) = Normal blocks ->
          length warnings
          = length (List.filter
                      (fun i => match i with
                                | OutputOther type _ =>
                                    negb (isCase reasoningCases type)
                                | _ => false
                                end) response)).
Proof.
  induction response as [|item rest IH]; intros w acc.
  - exists []. simpl. rewrite app_nil_r. repeat split. constructor.
  - cbn [formatOpenAIResponse_loop]. rewrite snd_bind, fst_bind.
    destruct (formatOutputItem_log acc item w)
      as (first & Hfirst & Hwarn & Hcount).
    destruct (fst (formatOutputItem acc item w)) as [acc'|e] eqn:Hitem.
    + destruct (IH (snd (formatOutputItem acc item w)) acc')
        as (others & Hothers & Hwarn' & Hcount').
      exists (first ++ others). split; [|split].
      * now rewrite Hothers, Hfirst, app_assoc.
      * apply Forall_app. now split.
      * intros blocks Hblocks. rewrite length_app.
        rewrite (Hcount acc' eq_refl), (Hcount' blocks Hblocks).
        change (item :: rest) with ([item] ++ rest).
        now rewrite List.filter_app, length_app.
    + exists first. split; [exact Hfirst|]. split; [exact Hwarn|].
      discriminate.
Qed.

(** X18. Converting an answer sends nothing and leaves the service alone:
    it only appends warnings to the log, and when it returns, it has
    warned once for each item that is neither a message, nor a function
    call, nor handled as reasoning. *)
Theorem formatOpenAIResponse_only_warns (response : list ResponseOutputItem)
  (w : World) :
  let after := snd (formatOpenAIResponse response w) in
  service after = service w
  /\ requests after = requests w
  /\ exists warnings,
       logged after = logged w ++ warnings
       /\ Forall (fun entry => exists text, entry = LoggerWarn text) warnings
       /\ (forall blocks,
             fst (formatOpenAIResponse response w) = Normal blocks ->
             length warnings
             = length (List.filter
                         (fun i => match i with
                                   | OutputOther type _ =>
                                       negb (isCase reasoningCases type)
                                   | _ => false
                                   end) response)).
Proof.
  simpl. destruct (formatOpenAIResponse_frame response [] w) as [Hs Hr].
  split; [exact Hs|]. split; [exact Hr|].
  apply formatOpenAIResponse_loop_log.
Qed.

End ResponseFacts.

Lemma formatOpenAIResponse_first_error_witness :
  fst (formatOpenAIResponse (rt := Reference.runtime)
         ([OutputMessage [ResponseOutputText "done"]]
          ++ OutputFunctionCall
               (mkFunctionToolCall "call_3" (Some "computer_click") "{not json")
             :: [OutputOther "reasoning" (mkReasoningItem "rs_3" (Some "enc") [])])
         (Sample.world Sample.config))
  = Throw (mkError SyntaxError None
             (Some (Reference.quote "{not json" +:+ " is not valid JSON"))).
Proof.
  apply (formatOpenAIResponse_first_error (rt := Reference.runtime)
           [OutputMessage [ResponseOutputText "done"]] _ _ [Text "done"]).
  - reflexivity.
  - reflexivity.
Defined.

Lemma formatOpenAIResponse_blocks_witness :
  Forall (fun block =>
            match block with
            | Text _ | ToolUse _ _ _ => True
            | Thinking thinking _ => thinking <> ""
            | _ => False
            end)
    [ Text "done"; Text "Refusal: no";
      ToolUse "call_2" (Some "computer_click") Sample.click;
      Thinking "enc-2" "rs_2" ].
Proof.
  apply (formatOpenAIResponse_blocks (rt := Reference.runtime)
           (output Sample.reply) _ (Sample.world Sample.config)).
  vm_compute. reflexivity.
Defined.

(** ** [generateMessage]: what is thrown, sent and logged *)

Section InvocationFacts.
Context {rt : Runtime} {host : Imports}.
Variable api : Provider.
Variables (systemPrompt : string) (messages : list Message).
Variables (model : option string) (useTools : option bool).
Variable signal : option AbortSignal.

Local Abbreviation theModel := (default (model_name DEFAULT_MODEL) model).
Local Abbreviation theTools := (default true useTools).
Local Abbreviation primaryParams :=
  (responseParams systemPrompt messages theModel theTools).
Local Abbreviation fallbackParams :=
  (chatParams systemPrompt messages theModel theTools).
Local Abbreviation primary :=
  (primaryAttempt api systemPrompt messages theModel theTools signal).
Local Abbreviation invoke :=
  (generateMessage api systemPrompt messages model useTools signal).

Lemma primaryAttempt_log (w : World) :
  exists warnings,
    logged (snd (primary w)) = logged w ++ warnings
    /\ Forall (fun entry => exists text, entry = LoggerWarn text) warnings.
Proof.
  unfold primaryAttempt. rewrite snd_bind.
  unfold call_responses_create at 1 2. simpl.
  destruct (responses_create api primaryParams signal) as [reply|e].
  - rewrite snd_bind.
    match goal with
    | |- context [formatOpenAIResponse (output reply) ?w1] =>
        destruct (formatOpenAIResponse_loop_log (output reply) w1 [])
          as (warnings & Hlog & Hwarn & _);
        fold (formatOpenAIResponse (output reply) w1) in Hlog;
        exists warnings;
        destruct (fst (formatOpenAIResponse (output reply) w1))
    end; simpl; now rewrite ?Hlog.
  - exists []. simpl. rewrite app_nil_r. split; [reflexivity | constructor].
Qed.

(** X19. What [generateMessage] throws is the interrupt or the very error
    of the primary attempt, never the error of the fallback: it throws
    only when the primary attempt failed and the fallback was skipped or
    failed too, BytebotAgentInterrupt when the primary error is an abort
    and the primary error itself otherwise. *)
Theorem generateMessage_throws_primary_error (w : World) (thrown : Thrown) :
  fst (invoke w) = Throw thrown ->
  exists error,
    fst (primary w) = Throw error
    /\ thrown = (if instanceofAPIUserAbortError error
                 then BytebotAgentInterrupt
                 else Rethrown error)
    /\ (likelyNeedsChatAPI (fallbackBase (service w)) error = false
        \/ exists fallbackErr,
             chat_completions_create api fallbackParams signal
             = Throw fallbackErr).
Proof.
  rewrite generateMessage_outcome.
  destruct (fst (primary w)) as [response|error]; [discriminate|].
  simpl. intros Hthrown. exists error. split; [reflexivity|].
  destruct (likelyNeedsChatAPI (fallbackBase (service w)) error).
  - destruct (chat_completions_create api fallbackParams signal)
      as [completion|fallbackErr]; [discriminate|].
    split; [|right; eauto].
    destruct (instanceofAPIUserAbortError error); congruence.
  - split; [|now left].
    destruct (instanceofAPIUserAbortError error); congruence.
Qed.

(** X20. When the primary call succeeds and its answer converts,
    [generateMessage] returns the converted blocks after that one request:
    the fallback endpoint is not called, and nothing is logged beyond the
    warnings of the conversion. *)
Theorem generateMessage_primary_success (w : World) (reply : Response)
  (blocks : list MessageContentBlock) :
  responses_create api primaryParams signal = Normal reply ->
  fst (formatOpenAIResponse (output reply) w) = Normal blocks ->
  (exists response,
     fst (invoke w) = Normal response /\ contentBlocks response = blocks)
  /\ requests (snd (invoke w))
     = requests w ++ [ResponsesRequest primaryParams signal]
  /\ exists warnings,
       logged (snd (invoke w)) = logged w ++ warnings
       /\ Forall (fun entry => exists text, entry = LoggerWarn text) warnings.
Proof.
  intros Hreply Hblocks.
  assert (Hprimary : exists response,
            fst (primary w) = Normal response
            /\ contentBlocks response = blocks).
  { rewrite primaryAttempt_outcome, Hreply, Hblocks. eauto. }
  destruct Hprimary as (response & Hprimary & Hcontent).
  split; [|split].
  - exists response. split; [|exact Hcontent].
    now rewrite generateMessage_outcome, Hprimary.
  - now rewrite generateMessage_requests, Hprimary.
  - rewrite generateMessage_unfold, Hprimary. simpl.
    apply primaryAttempt_log.
Qed.

(** X21. Every request of an invocation carries the caller's abort signal
    and the model the invocation resolved; the primary request carries the
    system prompt as instructions and the converted messages as input, the
    fallback request the conversation of [formatMessagesForChat]. *)
Theorem generateMessage_requests_carry_signal_and_model (w : World) :
  exists new : list NetworkRequest,
    requests (snd (invoke w)) = requests w ++ new
    /\ Forall (fun request =>
                 match request with
                 | ResponsesRequest params signal' =>
                     signal' = signal
                     /\ rp_model params = theModel
                     /\ instructions params = systemPrompt
                     /\ rp_input params = formatMessagesForOpenAI messages
                 | ChatCompletionsRequest params signal' =>
                     signal' = signal
                     /\ cp_model params = theModel
                     /\ cp_messages params
                        = formatMessagesForChat messages (Some systemPrompt)
                 end) new.
Proof.
  rewrite generateMessage_requests. eexists. split; [reflexivity|].
  constructor; [now repeat split|].
  destruct (fst (primary w)) as [response|error]; [constructor|].
  destruct (likelyNeedsChatAPI (fallbackBase (service w)) error);
    [|constructor].
  constructor; [now repeat split | constructor].
Qed.

(** X22. The two requests offer the model the same tools: with tools
    enabled the fallback request lists the tools of the primary request,
    one for one and in order, under the choice [auto]; with tools disabled
    neither request carries a tool, and the fallback names no choice. *)
Theorem requests_offer_the_same_tools (chosenModel : string) :
  (let primaryRequest :=
     responseParams systemPrompt messages chosenModel true in
   let fallbackRequest := chatParams systemPrompt messages chosenModel true in
   tool_choice fallbackRequest = Some "auto"
   /\ exists tools,
        cp_tools fallbackRequest = Some tools
        /\ map (fun t => match t with
                         | ChatFunctionTool name description parameters =>
                             mkFunctionTool name description parameters
                         end) tools
           = rp_tools primaryRequest)
  /\ (let primaryRequest :=
        responseParams systemPrompt messages chosenModel false in
      let fallbackRequest :=
        chatParams systemPrompt messages chosenModel false in
      rp_tools primaryRequest = []
      /\ cp_tools fallbackRequest = None
      /\ tool_choice fallbackRequest = None).
Proof.
  split; [|now repeat split].
  simpl. split; [reflexivity|]. eexists. split; [reflexivity|].
  rewrite map_map. induction openaiTools as [|[n d ps] rest IH]; simpl;
    [reflexivity | now rewrite IH].
Qed.

Lemma or_string_nonempty (a : option string) (b : string) :
  b <> "" -> or_string a b <> "".
Proof.
  intros Hb. destruct a as [s|]; simpl; [|assumption].
  destruct (String.eqb_spec s ""); assumption.
Qed.

(** X23. The fallback answers with at most one Text block, never an empty
    one, followed by one ToolUse block for each tool call of the first
    choice, in order, each with a non-empty id. *)
Theorem chatCompletionResponse_shape (completion : ChatCompletion) :
  exists texts tools,
    contentBlocks (chatCompletionResponse completion) = texts ++ tools
    /\ (texts = [] \/ exists text, texts = [Text text] /\ text <> "")
    /\ Forall (fun block => exists id name input,
                 block = ToolUse id name input /\ id <> "") tools
    /\ length tools
       = match firstMessage completion with
         | Some msg =>
             match tool_calls msg with
             | Some tcs => length tcs
             | None => 0%nat
             end
         | None => 0%nat
         end.
Proof.
  rewrite chatCompletionResponse_blocks.
  exists (chatTextBlocks (firstMessage completion)),
    (chatToolBlocks (firstMessage completion)).
  split; [reflexivity|]. split; [|split].
  - unfold chatTextBlocks.
    destruct (firstMessage completion) as [msg|]; [|now left].
    destruct (msg_content msg) as [content|]; [|now left].
    destruct (contentTruthy content); [|now left].
    unfold truthy.
    destruct (String.eqb_spec (finalTextOf content) ""); simpl; [now left|].
    right. eauto.
  - unfold chatToolBlocks.
    destruct (firstMessage completion) as [msg|]; [|constructor].
    destruct (tool_calls msg) as [tcs|]; [|constructor].
    induction tcs as [|tc tcs IH]; simpl; constructor; [|exact IH].
    unfold toolCallBlock. do 3 eexists. split; [reflexivity|].
    apply or_string_nonempty, or_string_nonempty. discriminate.
  - unfold chatToolBlocks.
    destruct (firstMessage completion) as [msg|]; [|reflexivity].
    destruct (tool_calls msg) as [tcs|]; [|reflexivity].
    apply length_map.
Qed.

(** X24. A completion without a first message is not an error: when the
    fallback is attempted and the provider answers with no choice, or with
    a first choice that has no message, [generateMessage] returns a
    response without content blocks. *)
Theorem generateMessage_fallback_without_message (w : World) (error : Error)
  (completion : ChatCompletion) :
  fst (primary w) = Throw error ->
  likelyNeedsChatAPI (fallbackBase (service w)) error = true ->
  chat_completions_create api fallbackParams signal = Normal completion ->
  firstMessage completion = None ->
  exists response,
    fst (invoke w) = Normal response /\ contentBlocks response = [].
Proof.
  intros Hprimary Hlikely Hcompletion Hmessage.
  exists (chatCompletionResponse completion). split.
  - now rewrite generateMessage_outcome, Hprimary, Hlikely, Hcompletion.
  - now rewrite chatCompletionResponse_blocks, Hmessage.
Qed.

(** X25. A fallback that fails is only warned about: after the two console
    lines on the primary error come one warning with the message of the
    fallback's error and then the line of what is thrown, the note of the
    abort or the report of the primary error. *)
Theorem generateMessage_fallback_failure_log (w : World)
  (error fallbackErr : Error) :
  fst (primary w) = Throw error ->
  likelyNeedsChatAPI (fallbackBase (service w)) error = true ->
  chat_completions_create api fallbackParams signal = Throw fallbackErr ->
  logged (snd (invoke w))
  = logged (snd (primary w))
    ++ [ ConsoleLog "error" error;
         ConsoleLog "error name" error;
         LoggerWarn ("Chat Completions fallback failed: "
                     +:+ or_string (message fallbackErr)
                           (Error_toString fallbackErr));
         if instanceofAPIUserAbortError error
         then LoggerLog "OpenAI API call aborted"
         else LoggerError ("Error sending message to OpenAI: "
                           +:+ interpolate (message error)) error ].
Proof.
  intros Hprimary Hlikely Hfailed.
  rewrite generateMessage_unfold, Hprimary.
  destruct (primaryAttempt_frame api systemPrompt messages model useTools
              signal w) as [Hservice _].
  unfold handleError, fallbackAttempt, call_chat_completions_create,
    bind, try_catch, log, this, ret, throw. simpl.
  rewrite Hservice, Hlikely, Hfailed. simpl.
  destruct (instanceofAPIUserAbortError error); simpl;
    now rewrite <- !app_assoc.
Qed.

End InvocationFacts.

Lemma generateMessage_throws_primary_error_witness :
  exists error,
    fst (primaryAttempt (rt := Reference.runtime) (host := Reference.imports)
           (Sample.provider (Throw Sample.rateLimited) (Throw Sample.notFound))
           "be helpful" Sample.messages "gpt-4.1-2025-04-14" true None
           (Sample.world Sample.config))
    = Throw error
    /\ Rethrown Sample.rateLimited
       = (if instanceofAPIUserAbortError error
          then BytebotAgentInterrupt
          else Rethrown error).
Proof.
  destruct (generateMessage_throws_primary_error
              (rt := Reference.runtime) (host := Reference.imports)
              (Sample.provider (Throw Sample.rateLimited)
                 (Throw Sample.notFound))
              "be helpful" Sample.messages (Some "gpt-4.1-2025-04-14")
              (Some true) None (Sample.world Sample.config)
              (Rethrown Sample.rateLimited))
    as (error & Hprimary & Hthrown & _).
  - vm_compute. reflexivity.
  - exists error. split; [exact Hprimary | exact Hthrown].
Defined.

Lemma generateMessage_primary_success_witness :
  exists response,
    fst (generateMessage (rt := Reference.runtime) (host := Reference.imports)
           (Sample.provider (Normal Sample.reply) (Throw Sample.notFound))
           "be helpful" Sample.messages None None None
           (Sample.world Sample.config))
    = Normal response
    /\ contentBlocks response
       = [ Text "done"; Text "Refusal: no";
           ToolUse "call_2" (Some "computer_click") Sample.click;
           Thinking "enc-2" "rs_2" ].
Proof.
  refine (proj1 (generateMessage_primary_success
                   (rt := Reference.runtime) (host := Reference.imports)
                   (Sample.provider (Normal Sample.reply)
                      (Throw Sample.notFound))
                   "be helpful" Sample.messages None None None
                   (Sample.world Sample.config) Sample.reply _ eq_refl _)).
  vm_compute. reflexivity.
Defined.

Lemma generateMessage_fallback_without_message_witness :
  exists response,
    fst (generateMessage (rt := Reference.runtime) (host := Reference.imports)
           (Sample.provider (Throw Sample.notFound)
              (Normal (mkChatCompletion (Some []) None)))
           "be helpful" Sample.messages None None None
           (Sample.world Sample.hostOnlyConfig))
    = Normal response
    /\ contentBlocks response = [].
Proof.
  apply (generateMessage_fallback_without_message
           (rt := Reference.runtime) (host := Reference.imports)
           (Sample.provider (Throw Sample.notFound)
              (Normal (mkChatCompletion (Some []) None)))
           "be helpful" Sample.messages None None None
           (Sample.world Sample.hostOnlyConfig) Sample.notFound
           (mkChatCompletion (Some []) None)).
  - reflexivity.
  - vm_compute. reflexivity.
  - reflexivity.
  - reflexivity.
Defined.

Lemma generateMessage_fallback_failure_log_witness :
  logged
    (snd (generateMessage (rt := Reference.runtime) (host := Reference.imports)
            (Sample.provider (Throw Sample.rateLimited) (Throw Sample.notFound))
            "be helpful" Sample.messages None None None
            (Sample.world Sample.config)))
  = [ ConsoleLog "error" Sample.rateLimited;
      ConsoleLog "error name" Sample.rateLimited;
      LoggerWarn "Chat Completions fallback failed: 404 page not found";
      LoggerError "Error sending message to OpenAI: Rate limit reached"
        Sample.rateLimited ].
Proof.
  refine (eq_trans
            (generateMessage_fallback_failure_log
               (rt := Reference.runtime) (host := Reference.imports)
               (Sample.provider (Throw Sample.rateLimited)
                  (Throw Sample.notFound))
               "be helpful" Sample.messages None None None
               (Sample.world Sample.config) Sample.rateLimited Sample.notFound
               eq_refl _ eq_refl) _).
  - vm_compute. reflexivity.
  - vm_compute. reflexivity.
Defined.

(** ** The test of the error message *)

Lemma canonicalizeAll_split (s x y : string) :
  canonicalizeAll s = x +:+ y ->
  exists a b, s = a +:+ b /\ canonicalizeAll a = x /\ canonicalizeAll b = y.
Proof.
  revert s. induction x as [|c x IH]; intros s Hs.
  - now exists EmptyString, s.
  - rewrite append_cons in Hs. destruct s as [|d s]; [discriminate|].
    simpl in Hs. injection Hs as Hd Hs.
    destruct (IH s Hs) as (a & b & -> & Ha & Hb).
    exists (String d a), b. rewrite append_cons. simpl.
    now rewrite Hd, Ha.
Qed.

Lemma canonicalizeAll_append (a b : string) :
  canonicalizeAll (a +:+ b) = canonicalizeAll a +:+ canonicalizeAll b.
Proof.
  induction a as [|c a IH]; [reflexivity|].
  rewrite append_cons. simpl. now rewrite IH, append_cons.
Qed.

(** X26. The handler's test of the error message, /responses/i, accepts
    exactly the messages that hold the word responses somewhere, in any
    mix of upper and lower case: a character matches a lower-case letter
    when it is that letter or its upper-case form. *)
Theorem test_responses_i_iff (s : string) :
  (test_responses_i s = true
   <-> exists before matched after,
         s = before +:+ matched +:+ after
         /\ canonicalizeAll matched = "responses")
  /\ (forall c letter : ascii,
        (97 <= nat_of_ascii letter <= 122)%nat ->
        canonicalize c = letter
        <-> c = letter
            \/ (nat_of_ascii c + 32)%nat = nat_of_ascii letter).
Proof.
  split.
  - unfold test_responses_i. rewrite includes_append. split.
    + intros (x & z & Hs).
      destruct (canonicalizeAll_split _ _ _ Hs) as (before & rest & -> & _ & Hrest).
      destruct (canonicalizeAll_split _ _ _ Hrest)
        as (matched & after & -> & Hmatched & _).
      now exists before, matched, after.
    + intros (before & matched & after & -> & Hmatched).
      exists (canonicalizeAll before), (canonicalizeAll after).
      now rewrite !canonicalizeAll_append, Hmatched.
  - intros c letter Hletter. unfold canonicalize.
    pose proof (nat_ascii_bounded c) as Hc.
    destruct ((65 <=? nat_of_ascii c)%nat && (nat_of_ascii c <=? 90)%nat)
      eqn:Hupper.
    + apply andb_true_iff in Hupper as [Hlow Hhigh].
      apply Nat.leb_le in Hlow, Hhigh. split.
      * intros <-. right. rewrite nat_ascii_embedding; lia.
      * intros [-> | Hshift]; [lia|].
        rewrite Hshift. apply ascii_nat_embedding.
    + split; [now left|]. intros [Hsame | Hshift]; [assumption|].
      apply andb_false_iff in Hupper.
      rewrite !Nat.leb_gt in Hupper. lia.
Qed.
